(** * python_coinpayments: the request signer, the gateway client and the
      IPN verifier of [python_coinpayments/api.py], embedded in Rocq.

    Python [str] values are modelled by their UTF-8 byte sequence, held in a
    Rocq [string]; Python [bytes] are [list byte]; a Python [dict] is an
    insertion-ordered association list. *)

From Stdlib Require Import ZArith List Bool Lia.
From Stdlib Require Import Strings.String Strings.Ascii Strings.Byte.
From Stdlib Require Import DecimalString Permutation.
Import ListNotations.

Local Open Scope Z_scope.

(** ** [hashlib.sha512] (FIPS 180-4), on 64-bit words held in [Z] *)

Module SHA512.

Definition word := Z.
Definition wmod : Z := 0x10000000000000000.

Definition mask : Z := 0xFFFFFFFFFFFFFFFF.

Definition add64 (a b : word) : word := (a + b) mod wmod.
Definition shr (n : Z) (x : word) : word := Z.shiftr x n.
Definition rotr (n : Z) (x : word) : word :=
  Z.lor (Z.shiftr x n) (Z.land (Z.shiftl x (64 - n)) mask).
Definition not64 (x : word) : word := Z.lxor x mask.

Definition Ch (x y z : word) : word :=
  Z.lxor (Z.land x y) (Z.land (not64 x) z).
Definition Maj (x y z : word) : word :=
  Z.lxor (Z.lxor (Z.land x y) (Z.land x z)) (Z.land y z).
Definition Sigma0 (x : word) : word :=
  Z.lxor (Z.lxor (rotr 28 x) (rotr 34 x)) (rotr 39 x).
Definition Sigma1 (x : word) : word :=
  Z.lxor (Z.lxor (rotr 14 x) (rotr 18 x)) (rotr 41 x).
Definition sigma0 (x : word) : word :=
  Z.lxor (Z.lxor (rotr 1 x) (rotr 8 x)) (shr 7 x).
Definition sigma1 (x : word) : word :=
  Z.lxor (Z.lxor (rotr 19 x) (rotr 61 x)) (shr 6 x).

Definition K : list word :=
  [ 0x428a2f98d728ae22; 0x7137449123ef65cd; 0xb5c0fbcfec4d3b2f; 0xe9b5dba58189dbbc;
    0x3956c25bf348b538; 0x59f111f1b605d019; 0x923f82a4af194f9b; 0xab1c5ed5da6d8118;
    0xd807aa98a3030242; 0x12835b0145706fbe; 0x243185be4ee4b28c; 0x550c7dc3d5ffb4e2;
    0x72be5d74f27b896f; 0x80deb1fe3b1696b1; 0x9bdc06a725c71235; 0xc19bf174cf692694;
    0xe49b69c19ef14ad2; 0xefbe4786384f25e3; 0x0fc19dc68b8cd5b5; 0x240ca1cc77ac9c65;
    0x2de92c6f592b0275; 0x4a7484aa6ea6e483; 0x5cb0a9dcbd41fbd4; 0x76f988da831153b5;
    0x983e5152ee66dfab; 0xa831c66d2db43210; 0xb00327c898fb213f; 0xbf597fc7beef0ee4;
    0xc6e00bf33da88fc2; 0xd5a79147930aa725; 0x06ca6351e003826f; 0x142929670a0e6e70;
    0x27b70a8546d22ffc; 0x2e1b21385c26c926; 0x4d2c6dfc5ac42aed; 0x53380d139d95b3df;
    0x650a73548baf63de; 0x766a0abb3c77b2a8; 0x81c2c92e47edaee6; 0x92722c851482353b;
    0xa2bfe8a14cf10364; 0xa81a664bbc423001; 0xc24b8b70d0f89791; 0xc76c51a30654be30;
    0xd192e819d6ef5218; 0xd69906245565a910; 0xf40e35855771202a; 0x106aa07032bbd1b8;
    0x19a4c116b8d2d0c8; 0x1e376c085141ab53; 0x2748774cdf8eeb99; 0x34b0bcb5e19b48a8;
    0x391c0cb3c5c95a63; 0x4ed8aa4ae3418acb; 0x5b9cca4f7763e373; 0x682e6ff3d6b2b8a3;
    0x748f82ee5defb2fc; 0x78a5636f43172f60; 0x84c87814a1f0ab72; 0x8cc702081a6439ec;
    0x90befffa23631e28; 0xa4506cebde82bde9; 0xbef9a3f7b2c67915; 0xc67178f2e372532b;
    0xca273eceea26619c; 0xd186b8c721c0c207; 0xeada7dd6cde0eb1e; 0xf57d4f7fee6ed178;
    0x06f067aa72176fba; 0x0a637dc5a2c898a6; 0x113f9804bef90dae; 0x1b710b35131c471b;
    0x28db77f523047d84; 0x32caab7b40c72493; 0x3c9ebe0a15c9bebc; 0x431d67c49c100d4c;
    0x4cc5d4becb3e42b6; 0x597f299cfc657e2a; 0x5fcb6fab3ad6faec; 0x6c44198c4a475817 ].

Definition H0 : list word :=
  [ 0x6a09e667f3bcc908; 0xbb67ae8584caa73b; 0x3c6ef372fe94f82b; 0xa54ff53a5f1d36f1;
    0x510e527fade682d1; 0x9b05688c2b3e6c1f; 0x1f83d9abfb41bd6b; 0x5be0cd19137e2179 ].

Definition byteZ (b : byte) : Z := Z.of_N (Byte.to_N b).
Definition Zbyte (z : Z) : byte :=
  match Byte.of_N (Z.to_N (z mod 256)) with
  | Some b => b
  | None => x00
  end.

(** Big-endian packing of bytes into a number and back. *)
Definition be_pack (bs : list byte) : Z :=
  fold_left (fun acc b => acc * 256 + byteZ b) bs 0.

Fixpoint be_unpack (n : nat) (z : Z) : list byte :=
  match n with
  | O => []
  | S n' => be_unpack n' (z / 256) ++ [Zbyte z]
  end.

(** Message padding: one [0x80] byte, zeros up to 112 modulo 128, then the
    bit length on 16 bytes. *)
Definition pad (msg : list byte) : list byte :=
  let len := Z.of_nat (List.length msg) in
  let zeros := Z.to_nat ((111 - len) mod 128) in
  msg ++ [x80] ++ repeat x00 zeros ++ be_unpack 16 (8 * len).

Fixpoint chunks (fuel n : nat) (bs : list byte) : list (list byte) :=
  match fuel with
  | O => []
  | S fuel' =>
      match bs with
      | [] => []
      | _ => firstn n bs :: chunks fuel' n (skipn n bs)
      end
  end.

Definition block_words (blk : list byte) : list word :=
  map be_pack (chunks 16 8 blk).

(** The message schedule, most recent word first. *)
Fixpoint extend (n : nat) (rev_w : list word) : list word :=
  match n with
  | O => rev_w
  | S n' =>
      let w := add64 (add64 (sigma1 (nth 1 rev_w 0)) (nth 6 rev_w 0))
                     (add64 (sigma0 (nth 14 rev_w 0)) (nth 15 rev_w 0)) in
      extend n' (w :: rev_w)
  end.

Definition schedule (blk : list byte) : list word :=
  rev (extend 64 (rev (block_words blk))).

Record regs : Type := mkRegs
  { ra : word; rb : word; rc : word; rd : word;
    re : word; rf : word; rg : word; rh : word }.

Definition regs_of (l : list word) : regs :=
  mkRegs (nth 0 l 0) (nth 1 l 0) (nth 2 l 0) (nth 3 l 0)
         (nth 4 l 0) (nth 5 l 0) (nth 6 l 0) (nth 7 l 0).

Definition round (s : regs) (kw : word * word) : regs :=
  let t1 := add64 (add64 (add64 (rh s) (Sigma1 (re s)))
                         (add64 (Ch (re s) (rf s) (rg s)) (fst kw))) (snd kw) in
  let t2 := add64 (Sigma0 (ra s)) (Maj (ra s) (rb s) (rc s)) in
  mkRegs (add64 t1 t2) (ra s) (rb s) (rc s) (add64 (rd s) t1) (re s) (rf s) (rg s).

Definition compress (h : regs) (blk : list byte) : regs :=
  let s := fold_left round (combine K (schedule blk)) h in
  mkRegs (add64 (ra h) (ra s)) (add64 (rb h) (rb s))
         (add64 (rc h) (rc s)) (add64 (rd h) (rd s))
         (add64 (re h) (re s)) (add64 (rf h) (rf s))
         (add64 (rg h) (rg s)) (add64 (rh h) (rh s)).

Definition digest_size : nat := 64.
Definition block_size : nat := 128.

Definition digest (msg : list byte) : list byte :=
  let padded := pad msg in
  let h := fold_left compress (chunks (List.length padded) block_size padded)
                     (regs_of H0) in
  flat_map (be_unpack 8)
    [ra h; rb h; rc h; rd h; re h; rf h; rg h; rh h].

End SHA512.

(** ** [hmac.new(key, msg, hashlib.sha512)] (RFC 2104) and [hexdigest] *)

Module HMAC.

Definition xor_byte (c : Z) (b : byte) : byte :=
  SHA512.Zbyte (Z.lxor c (SHA512.byteZ b)).

Definition block_key (key : list byte) : list byte :=
  let k := if Nat.ltb SHA512.block_size (List.length key)
           then SHA512.digest key else key in
  k ++ repeat x00 (SHA512.block_size - List.length k).

Definition hmac_sha512 (key msg : list byte) : list byte :=
  let k := block_key key in
  let inner := SHA512.digest (map (xor_byte 0x36) k ++ msg) in
  SHA512.digest (map (xor_byte 0x5c) k ++ inner).

Definition hex_digit (z : Z) : ascii :=
  ascii_of_N (Z.to_N (if z <? 10 then 48 + z else 87 + z)).

Fixpoint hex (bs : list byte) : string :=
  match bs with
  | [] => EmptyString
  | b :: bs' =>
      let z := SHA512.byteZ b in
      String (hex_digit (z / 16)) (String (hex_digit (z mod 16)) (hex bs'))
  end.

Definition hexdigest (key msg : list byte) : string :=
  hex (hmac_sha512 key msg).

End HMAC.

(** ** Python values: the [str] and [int] values a parameter set holds *)

Local Open Scope string_scope.

Inductive pyval : Type :=
| PStr (s : string)
| PInt (z : Z).

(** [str(v)] *)
Definition py_str (v : pyval) : string :=
  match v with
  | PStr s => s
  | PInt z => NilZero.string_of_int (Z.to_int z)
  end.

(** [a == b]: a [str] never equals an [int]. *)
Definition py_eq (a b : pyval) : bool :=
  match a, b with
  | PStr s, PStr t => String.eqb s t
  | PInt x, PInt y => Z.eqb x y
  | _, _ => false
  end.

(** The result of [dict.get] is [None] or a value; [x is None] and [x != v]
    on such results. *)
Definition is_None {A : Type} (x : option A) : bool :=
  match x with
  | None => true
  | Some _ => false
  end.

Definition py_ne (x : option pyval) (v : pyval) : bool :=
  match x with
  | None => true
  | Some a => negb (py_eq a v)
  end.

(** [s.encode("utf-8")] and [bytearray(s, "utf-8")] *)
Definition encode_utf8 (s : string) : list byte := list_byte_of_string s.

(** ** [dict]: insertion-ordered, [update] keeps the place of a key that is
    already there and appends a new key at the end *)

Definition dict : Type := list (string * pyval).

Module Dict.

Fixpoint get (k : string) (d : dict) : option pyval :=
  match d with
  | [] => None
  | (k', v) :: d' => if String.eqb k k' then Some v else get k d'
  end.

Definition mem (k : string) (d : dict) : bool := negb (is_None (get k d)).

Fixpoint set (k : string) (v : pyval) (d : dict) : dict :=
  match d with
  | [] => [(k, v)]
  | (k', v') :: d' =>
      if String.eqb k k' then (k, v) :: d' else (k', v') :: set k v d'
  end.

(** [d.update(other)] *)
Definition update (d other : dict) : dict :=
  fold_left (fun acc kv => set (fst kv) (snd kv) acc) other d.

(** [d.pop(k)], for the dict it leaves *)
Fixpoint pop (k : string) (d : dict) : dict :=
  match d with
  | [] => []
  | (k', v) :: d' => if String.eqb k k' then d' else (k', v) :: pop k d'
  end.

Definition keys (d : dict) : list string := map fst d.

End Dict.

(** ** [urllib.parse]: [quote], [quote_plus], [urlencode], as of Python 3.7
    (where [~] is among the characters never quoted) *)

Module Urllib.

Definition always_safe : string :=
  "ABCDEFGHIJKLMNOPQRSTUVWXYZabcdefghijklmnopqrstuvwxyz0123456789_.-~".

Fixpoint contains (c : ascii) (s : string) : bool :=
  match s with
  | EmptyString => false
  | String c' s' => Ascii.eqb c c' || contains c s'
  end.

Definition upper_hex_digit (n : N) : ascii :=
  ascii_of_N (if N.ltb n 10 then 48 + n else 55 + n).

(** ['%{:02X}'.format(b)] *)
Definition percent (c : ascii) : string :=
  let n := N_of_ascii c in
  String "%" (String (upper_hex_digit (N.div n 16))
                     (String (upper_hex_digit (N.modulo n 16)) EmptyString)).

(** [quote_from_bytes(s.encode("utf-8"), safe)] *)
Fixpoint quote (safe : string) (s : string) : string :=
  match s with
  | EmptyString => EmptyString
  | String c s' =>
      (if contains c always_safe || contains c safe
       then String c EmptyString else percent c) ++ quote safe s'
  end.

(** [s.replace(' ', '+')] *)
Fixpoint replace_space (s : string) : string :=
  match s with
  | EmptyString => EmptyString
  | String c s' => String (if Ascii.eqb c " " then "+"%char else c) (replace_space s')
  end.

Definition quote_plus (s : string) : string :=
  if negb (contains " " s) then quote "" s
  else replace_space (quote " " s).

(** [urlencode(query)] for a dict whose values are [str] or [int]. *)
Definition urlencode (query : dict) : string :=
  String.concat "&"
    (map (fun kv => quote_plus (fst kv) ++ "=" ++ quote_plus (py_str (snd kv)))
         query).

End Urllib.

(** ** Exceptions and keyword-argument calls *)

Inductive exn : Type :=
| TypeError
| UnboundLocalError
| URLError
| JSONDecodeError.

Inductive result (A : Type) : Type :=
| Ok (a : A)
| Raise (e : exn).
Arguments Ok {A} a.
Arguments Raise {A} e.

Definition bind {A B : Type} (r : result A) (k : A -> result B) : result B :=
  match r with
  | Ok a => k a
  | Raise e => Raise e
  end.

Notation "x <- c ;; k" := (bind c (fun x => k))
  (at level 61, c at next level, right associativity).

(** [f(a=..., **kwargs)]: the call raises [TypeError] when [kwargs] holds a
    key that names a parameter the call already binds; otherwise the callee's
    [**params] is [kwargs]. *)
Definition bind_kwargs (bound : list string) (kwargs : dict) : result dict :=
  if existsb (fun name => Dict.mem name kwargs) bound
  then Raise TypeError
  else Ok kwargs.

(** ** [calculate_hmac] (api.py, 13-19) *)

Definition calculate_hmac (secret : string) (params : dict) : string :=
  let encoded := encode_utf8 (Urllib.urlencode params) in
  HMAC.hexdigest (encode_utf8 secret) encoded.

(** The call [calculate_hmac(secret=secret, **kwargs)]. *)
Definition call_calculate_hmac (secret : string) (kwargs : dict) : result string :=
  params <- bind_kwargs ["secret"] kwargs ;;
  Ok (calculate_hmac secret params).

(** ** [authenticate_ipn_request] (api.py, 22-57) *)

Definition authenticate_ipn_request
    (secret merchant_id : string) (http_headers http_post : dict)
    (ipn_mode : option string) : result (bool * option string) :=
  let ipn_mode := match ipn_mode with Some m => m | None => "hmac" end in
  let params := http_post in
  let received_ipn_mode := Dict.get "ipn_mode" params in
  let merchant := Dict.get "merchant" params in
  let http_hmac := Dict.get "HTTP_HMAC" http_headers in
  hashed <- call_calculate_hmac secret params ;;
  Ok (if is_None merchant then (false, Some "No merchant ID")
      else if py_ne merchant (PStr merchant_id) then (false, Some "Invalid merchant ID")
      else if is_None received_ipn_mode then (false, Some "No ipn_mode")
      else if py_ne received_ipn_mode (PStr ipn_mode) then (false, Some "Invalid ipn_mode")
      else if is_None http_hmac then (false, Some "No HTTP HMAC")
      else if py_ne http_hmac (PStr hashed) then (false, Some "Invalid HTTP HMAC")
      else (true, None)).

(** ** [json.loads]: the document grammar of RFC 8259

    Numbers keep their lexeme, the decoder's [NaN], [Infinity] and
    [-Infinity] included; an object keeps its members in document order, a
    repeated name keeping its first place and its last value, as a Python
    [dict] built by the decoder does. *)

Module Json.

#[warnings="-register-all"]
Inductive json : Type :=
| JNull
| JBool (b : bool)
| JNumber (lexeme : string)
| JString (s : string)
| JArray (items : list json)
| JObject (members : list (string * json)).

Definition is_ws (c : ascii) : bool :=
  let n := N_of_ascii c in
  N.eqb n 32 || N.eqb n 9 || N.eqb n 10 || N.eqb n 13.

Definition is_digit (c : ascii) : bool :=
  let n := N_of_ascii c in N.leb 48 n && N.leb n 57.

Fixpoint skip_ws (s : string) : string :=
  match s with
  | String c s' => if is_ws c then skip_ws s' else s
  | EmptyString => s
  end.

Fixpoint digits (s : string) : string * string :=
  match s with
  | String c s' =>
      if is_digit c then let (d, r) := digits s' in (String c d, r)
      else (EmptyString, s)
  | EmptyString => (EmptyString, s)
  end.

(** A number: an optional minus sign, an integer part without a leading
    zero, an optional fraction and an optional exponent. *)
Definition number (s : string) : option (string * string) :=
  let (sign, s1) :=
    match s with
    | String "-" r => ("-", r)
    | _ => ("", s)
    end in
  let (int, s2) := digits s1 in
  match int with
  | EmptyString => None
  | String c rest =>
      if Ascii.eqb c "0" && negb (String.eqb rest "") then None else
      let (frac, s3) :=
        match s2 with
        | String "." r =>
            let (d, r') := digits r in
            if String.eqb d "" then ("", s2) else ("." ++ d, r')
        | _ => ("", s2)
        end in
      let (exp, s4) :=
        match s3 with
        | String e r =>
            if Ascii.eqb e "e" || Ascii.eqb e "E" then
              let (sg, r1) :=
                match r with
                | String "+" r' => ("+", r')
                | String "-" r' => ("-", r')
                | _ => ("", r)
                end in
              let (d, r2) := digits r1 in
              if String.eqb d "" then ("", s3)
              else (String e (sg ++ d), r2)
            else ("", s3)
        | EmptyString => ("", s3)
        end in
      Some (sign ++ int ++ frac ++ exp, s4)
  end.

Definition dquote : ascii := ascii_of_N 34.

Definition hex_value (c : ascii) : option N :=
  let n := N_of_ascii c in
  if N.leb 48 n && N.leb n 57 then Some (n - 48)%N
  else if N.leb 65 n && N.leb n 70 then Some (n - 55)%N
  else if N.leb 97 n && N.leb n 102 then Some (n - 87)%N
  else None.

(** The four hexadecimal digits of a [\u] escape. *)
Definition hex4 (s : string) : option (N * string) :=
  match s with
  | String a (String b (String c (String d r))) =>
      match hex_value a, hex_value b, hex_value c, hex_value d with
      | Some x, Some y, Some z, Some w =>
          Some ((((x * 16 + y) * 16 + z) * 16 + w)%N, r)
      | _, _, _, _ => None
      end
  | _ => None
  end.

(** The UTF-8 bytes of a code point; a surrogate that stands alone is
    written on three bytes like any other code point of its range. *)
Definition utf8 (cp : N) : string :=
  let byte (n : N) := String (ascii_of_N n) EmptyString in
  let cont (n : N) := byte (128 + N.modulo n 64)%N in
  if N.ltb cp 128 then byte cp
  else if N.ltb cp 2048 then byte (192 + N.div cp 64)%N ++ cont cp
  else if N.ltb cp 65536 then
    byte (224 + N.div cp 4096)%N ++ cont (N.div cp 64) ++ cont cp
  else byte (240 + N.div cp 262144)%N ++ cont (N.div cp 4096)
         ++ cont (N.div cp 64) ++ cont cp.

(** The text of a string literal up to its closing quote, as written; a
    control character is refused. *)
Fixpoint literal (s : string) : option (string * string) :=
  let cons (c : ascii) (rest : option (string * string)) :=
    match rest with
    | Some (t, r') => Some (String c t, r')
    | None => None
    end in
  match s with
  | EmptyString => None
  | String c r =>
      if Ascii.eqb c dquote then Some (EmptyString, r)
      else if N.ltb (N_of_ascii c) 32 then None
      else if Ascii.eqb c "\" then
        match r with
        | EmptyString => None
        | String e r' =>
            if N.ltb (N_of_ascii e) 32 then None
            else cons c (cons e (literal r'))
        end
      else cons c (literal r)
  end.

(** The escapes of a literal decoded: the two-character escapes, and [\u]
    with four hexadecimal digits, a high surrogate followed by a low one
    making one code point. *)
Fixpoint unescape (fuel : nat) (raw : string) : option string :=
  match fuel with
  | O => None
  | S fuel' =>
      let cons (t : string) (rest : option string) :=
        match rest with
        | Some u => Some (t ++ u)
        | None => None
        end in
      let one (n : N) := String (ascii_of_N n) EmptyString in
      match raw with
      | EmptyString => Some EmptyString
      | String c r =>
          if negb (Ascii.eqb c "\") then cons (String c EmptyString) (unescape fuel' r)
          else
            match r with
            | EmptyString => None
            | String e r' =>
                if Ascii.eqb e dquote then cons (one 34%N) (unescape fuel' r')
                else if Ascii.eqb e "\" then cons (one 92%N) (unescape fuel' r')
                else if Ascii.eqb e "/" then cons (one 47%N) (unescape fuel' r')
                else if Ascii.eqb e "b" then cons (one 8%N) (unescape fuel' r')
                else if Ascii.eqb e "f" then cons (one 12%N) (unescape fuel' r')
                else if Ascii.eqb e "n" then cons (one 10%N) (unescape fuel' r')
                else if Ascii.eqb e "r" then cons (one 13%N) (unescape fuel' r')
                else if Ascii.eqb e "t" then cons (one 9%N) (unescape fuel' r')
                else if Ascii.eqb e "u" then
                  match hex4 r' with
                  | None => None
                  | Some (hi, r1) =>
                      let low :=
                        match r1 with
                        | String "\" (String "u" r2) =>
                            match hex4 r2 with
                            | Some (lo, r3) =>
                                if N.leb 56320 lo && N.leb lo 57343
                                then Some (lo, r3) else None
                            | None => None
                            end
                        | _ => None
                        end in
                      match low with
                      | Some (lo, r3) =>
                          if N.leb 55296 hi && N.leb hi 56319 then
                            cons (utf8 (65536 + (hi - 55296) * 1024 + (lo - 56320))%N)
                                 (unescape fuel' r3)
                          else cons (utf8 hi) (unescape fuel' r1)
                      | None => cons (utf8 hi) (unescape fuel' r1)
                      end
                  end
                else None
            end
      end
  end.

(** The characters of a string literal, decoded, and what follows it. *)
Definition chars (s : string) : option (string * string) :=
  match literal s with
  | Some (raw, r) =>
      match unescape (S (String.length raw)) raw with
      | Some t => Some (t, r)
      | None => None
      end
  | None => None
  end.

Fixpoint put (k : string) (v : json) (ms : list (string * json)) :
    list (string * json) :=
  match ms with
  | [] => [(k, v)]
  | (k', v') :: ms' =>
      if String.eqb k k' then (k, v) :: ms' else (k', v') :: put k v ms'
  end.

Fixpoint value (fuel : nat) (s : string) : option (json * string) :=
  match fuel with
  | O => None
  | S fuel' =>
      let fix elements (n : nat) (s : string) : option (list json * string) :=
        match n with
        | O => None
        | S n' =>
            match value fuel' s with
            | Some (v, r) =>
                match skip_ws r with
                | String "," r' =>
                    match elements n' r' with
                    | Some (vs, r'') => Some (v :: vs, r'')
                    | None => None
                    end
                | String "]" r' => Some ([v], r')
                | _ => None
                end
            | None => None
            end
        end in
      let fix members (n : nat) (acc : list (string * json)) (s : string) :
          option (list (string * json) * string) :=
        match n with
        | O => None
        | S n' =>
            match skip_ws s with
            | String q r =>
                if negb (Ascii.eqb q dquote) then None else
                match chars r with
                | Some (k, r1) =>
                    match skip_ws r1 with
                    | String ":" r2 =>
                        match value fuel' r2 with
                        | Some (v, r3) =>
                            match skip_ws r3 with
                            | String "," r4 => members n' (put k v acc) r4
                            | String "}" r4 => Some (put k v acc, r4)
                            | _ => None
                            end
                        | None => None
                        end
                    | _ => None
                    end
                | None => None
                end
            | EmptyString => None
            end
        end in
      match skip_ws s with
      | String "n" (String "u" (String "l" (String "l" r))) => Some (JNull, r)
      | String "t" (String "r" (String "u" (String "e" r))) => Some (JBool true, r)
      | String "f" (String "a" (String "l" (String "s" (String "e" r)))) =>
          Some (JBool false, r)
      | String "N" (String "a" (String "N" r)) => Some (JNumber "NaN", r)
      | String "I" (String "n" (String "f" (String "i" (String "n"
          (String "i" (String "t" (String "y" r))))))) =>
          Some (JNumber "Infinity", r)
      | String "-" (String "I" (String "n" (String "f" (String "i" (String "n"
          (String "i" (String "t" (String "y" r)))))))) =>
          Some (JNumber "-Infinity", r)
      | String "[" r =>
          match skip_ws r with
          | String "]" r' => Some (JArray [], r')
          | _ =>
              match elements (String.length r) r with
              | Some (vs, r') => Some (JArray vs, r')
              | None => None
              end
          end
      | String "{" r =>
          match skip_ws r with
          | String "}" r' => Some (JObject [], r')
          | _ =>
              match members (String.length r) [] r with
              | Some (ms, r') => Some (JObject ms, r')
              | None => None
              end
          end
      | String c r =>
          if Ascii.eqb c dquote then
            match chars r with
            | Some (t, r') => Some (JString t, r')
            | None => None
            end
          else
            match number (String c r) with
            | Some (lexeme, r') => Some (JNumber lexeme, r')
            | None => None
            end
      | EmptyString => None
      end
  end.

(** Well-formed UTF-8, an encoded surrogate being let through as the
    decoder's [surrogatepass] does. *)
Fixpoint utf8_valid (s : string) : bool :=
  let within (lo hi : N) (c : ascii) :=
    N.leb lo (N_of_ascii c) && N.leb (N_of_ascii c) hi in
  match s with
  | EmptyString => true
  | String a r =>
      if within 0%N 127%N a then utf8_valid r
      else
        match r with
        | EmptyString => false
        | String b r1 =>
            if within 194%N 223%N a then within 128%N 191%N b && utf8_valid r1
            else
              match r1 with
              | EmptyString => false
              | String c r2 =>
                  if within 224%N 239%N a then
                    within (if Ascii.eqb a (ascii_of_N 224) then 160%N else 128%N)
                           191%N b
                    && within 128%N 191%N c && utf8_valid r2
                  else
                    match r2 with
                    | EmptyString => false
                    | String d r3 =>
                        within 240%N 244%N a
                        && within (if Ascii.eqb a (ascii_of_N 240) then 144%N else 128%N)
                                  (if Ascii.eqb a (ascii_of_N 244) then 143%N else 191%N)
                                  b
                        && within 128%N 191%N c && within 128%N 191%N d
                        && utf8_valid r3
                    end
              end
        end
  end.

(** [json.loads(body)] for a body in UTF-8, with or without a byte order
    mark; [None] stands for the decoder raising.  A body in UTF-16 or
    UTF-32, which the decoder recognises by its first bytes, is not
    modelled. *)
Definition loads (body : list byte) : option json :=
  let s :=
    match string_of_list_byte body with
    | String a (String b (String c r)) =>
        if N.eqb (N_of_ascii a) 239 && N.eqb (N_of_ascii b) 187
           && N.eqb (N_of_ascii c) 191
        then r else string_of_list_byte body
    | s' => s'
    end in
  if negb (utf8_valid s) then None else
  match value (S (String.length s)) s with
  | Some (v, r) =>
      match skip_ws r with
      | EmptyString => Some v
      | _ => None
      end
  | None => None
  end.

End Json.

(** ** The [CoinPayments] class (api.py, 60-127) *)

Record CoinPayments : Type := mkCoinPayments
  { url : string;
    public_key : string;
    private_key : string;
    ipn_url : string;
    format : string;
    version : Z }.

(** [__init__(self, public_key, private_key, ipn_url="")] *)
Definition CoinPayments_init (public_key private_key : string)
    (ipn_url : option string) : CoinPayments :=
  {| url := "https://www.coinpayments.net/api.php";
     public_key := public_key;
     private_key := private_key;
     ipn_url := match ipn_url with Some u => u | None => "" end;
     format := "json";
     version := 1 |}.

(** [_package_params(self, params=None)]: the dict returned is the caller's
    own dict after the update in place (a new one when [params] is [None]). *)
Definition _package_params (self : CoinPayments) (params : option dict) : dict :=
  let params := match params with Some p => p | None => [] end in
  Dict.update params
    [ ("key", PStr (public_key self));
      ("version", PInt (version self));
      ("format", PStr (format self)) ].

(** [create_hmac(self, **params)] *)
Definition create_hmac (self : CoinPayments) (params : dict) :
    result (list byte * string) :=
  let encoded := encode_utf8 (Urllib.urlencode params) in
  sig <- call_calculate_hmac (private_key self) params ;;
  Ok (encoded, sig).

(** The call [self.create_hmac( **kwargs)]. *)
Definition call_create_hmac (self : CoinPayments) (kwargs : dict) :
    result (list byte * string) :=
  params <- bind_kwargs ["self"] kwargs ;;
  create_hmac self params.

(** [urllib.request.Request(url, data=None, headers={})] *)
Record Request : Type := mkRequest
  { full_url : string;
    data : option (list byte);
    headers : dict }.

(** What [urllib.request.urlopen(req)] does: it returns a response whose
    [read()] gives the body, raises [HTTPError] (whose [read()] gives the
    body) for an error status, or raises another exception when no response
    was obtained. *)
Inductive urlopen_outcome : Type :=
| Response (status : Z) (body : list byte)
| HTTPError (code : Z) (body : list byte)
| Failure (e : exn).

Section Gateway.

(** The decoder and the network are the environment of the client. *)
Variable JSON : Type.
Variable json_loads : list byte -> option JSON.
Variable urlopen : Request -> urlopen_outcome.

(** [request(self, request_method, **params)].  The first component lists
    the requests handed to [urlopen], in order; the local [req] is [None]
    while it is unbound. *)
Definition request (self : CoinPayments) (request_method : string)
    (params : dict) : list Request * result JSON :=
  match call_create_hmac self params with
  | Raise e => ([], Raise e)
  | Ok (encoded, sig) =>
      let headers := [("Hmac", PStr sig)] in
      let req :=
        if String.eqb request_method "get" then
          Some (mkRequest (url self) None headers)
        else if String.eqb request_method "post" then
          let headers :=
            Dict.set "Content-type"
              (PStr "application/x-www-form-urlencoded") headers in
          Some (mkRequest (url self) (Some encoded) headers)
        else None in
      match req with
      | None => ([], Raise UnboundLocalError)
      | Some req =>
          let response_body :=
            match urlopen req with
            | Response _ body => Ok body
            | HTTPError _ body => Ok body
            | Failure e => Raise e
            end in
          ([req],
           body <- response_body ;;
           match json_loads body with
           | Some v => Ok v
           | None => Raise JSONDecodeError
           end)
      end
  end.

(** The call [self.request(request_method, **params)]. *)
Definition call_request (self : CoinPayments) (request_method : string)
    (kwargs : dict) : list Request * result JSON :=
  match bind_kwargs ["self"; "request_method"] kwargs with
  | Raise e => ([], Raise e)
  | Ok params => request self request_method params
  end.

End Gateway.

(** ** The operations (api.py, 129-308), over the bound method
    [self.request] they all end in *)

Section Operations.

Variable R : Type.
Variable self_request : CoinPayments -> string -> dict -> R.

Definition create_transaction (self : CoinPayments) (params : option dict) : R :=
  let params := _package_params self params in
  let params :=
    if negb (String.eqb (ipn_url self) "")
    then Dict.update params [("ipn_url", PStr (ipn_url self))]
    else params in
  let params := Dict.update params [("cmd", PStr "create_transaction")] in
  self_request self "post" params.

Definition get_basic_info (self : CoinPayments) (params : option dict) : R :=
  let params := _package_params self params in
  let params := Dict.update params [("cmd", PStr "get_basic_info")] in
  self_request self "post" params.

Definition rates (self : CoinPayments) (params : option dict) : R :=
  let params := _package_params self params in
  let params := Dict.update params [("cmd", PStr "rates")] in
  self_request self "post" params.

Definition balances (self : CoinPayments) (params : option dict) : R :=
  let params := _package_params self params in
  let params := Dict.update params [("cmd", PStr "balances")] in
  self_request self "post" params.

Definition get_deposit_address (self : CoinPayments) (params : option dict) : R :=
  let params := _package_params self params in
  let params := Dict.update params [("cmd", PStr "get_deposit_address")] in
  self_request self "post" params.

Definition get_callback_address (self : CoinPayments) (params : option dict) : R :=
  let params := _package_params self params in
  let params :=
    if negb (String.eqb (ipn_url self) "")
    then Dict.update params [("ipn_url", PStr (ipn_url self))]
    else params in
  let params := Dict.update params [("cmd", PStr "get_callback_address")] in
  self_request self "post" params.

Definition create_transfer (self : CoinPayments) (params : option dict) : R :=
  let params := _package_params self params in
  let params := Dict.update params [("cmd", PStr "create_transfer")] in
  self_request self "post" params.

Definition create_withdrawal (self : CoinPayments) (params : option dict) : R :=
  let params := _package_params self params in
  let params := Dict.update params [("cmd", PStr "create_withdrawal")] in
  self_request self "post" params.

Definition convert_coins (self : CoinPayments) (params : option dict) : R :=
  let params := _package_params self params in
  let params := Dict.update params [("cmd", PStr "convert")] in
  self_request self "post" params.

Definition get_conversion_limits (self : CoinPayments) (params : option dict) : R :=
  let params := _package_params self params in
  let params := Dict.update params [("cmd", PStr "convert_limits")] in
  self_request self "post" params.

Definition get_withdrawal_history (self : CoinPayments) (params : option dict) : R :=
  let params := _package_params self params in
  let params := Dict.update params [("cmd", PStr "get_withdrawal_history")] in
  self_request self "post" params.

Definition get_withdrawal_info (self : CoinPayments) (params : option dict) : R :=
  let params := _package_params self params in
  let params := Dict.update params [("cmd", PStr "get_withdrawal_info")] in
  self_request self "post" params.

Definition get_conversion_info (self : CoinPayments) (params : option dict) : R :=
  let params := _package_params self params in
  let params := Dict.update params [("cmd", PStr "get_conversion_info")] in
  self_request self "post" params.

Definition get_tx_info (self : CoinPayments) (params : option dict) : R :=
  let params := _package_params self params in
  let params := Dict.update params [("cmd", PStr "get_tx_info")] in
  self_request self "post" params.

Definition get_tx_info_multi (self : CoinPayments) (params : option dict) : R :=
  let params := _package_params self params in
  let params := Dict.update params [("cmd", PStr "get_tx_info_multi")] in
  self_request self "post" params.

Definition get_tx_list (self : CoinPayments) (params : option dict) : R :=
  let params := _package_params self params in
  let params := Dict.update params [("cmd", PStr "get_tx_ids")] in
  self_request self "post" params.

(** The sixteen public operations of the class and their methods. *)
Inductive operation : Type :=
| CreateTransaction | GetBasicInfo | Rates | Balances | GetDepositAddress
| GetCallbackAddress | CreateTransfer | CreateWithdrawal | ConvertCoins
| GetConversionLimits | GetWithdrawalHistory | GetWithdrawalInfo
| GetConversionInfo | GetTxInfo | GetTxInfoMulti | GetTxList.

Definition method (op : operation) : CoinPayments -> option dict -> R :=
  match op with
  | CreateTransaction => create_transaction
  | GetBasicInfo => get_basic_info
  | Rates => rates
  | Balances => balances
  | GetDepositAddress => get_deposit_address
  | GetCallbackAddress => get_callback_address
  | CreateTransfer => create_transfer
  | CreateWithdrawal => create_withdrawal
  | ConvertCoins => convert_coins
  | GetConversionLimits => get_conversion_limits
  | GetWithdrawalHistory => get_withdrawal_history
  | GetWithdrawalInfo => get_withdrawal_info
  | GetConversionInfo => get_conversion_info
  | GetTxInfo => get_tx_info
  | GetTxInfoMulti => get_tx_info_multi
  | GetTxList => get_tx_list
  end.

End Operations.

(** The command each operation names. *)
Definition command (op : operation) : string :=
  match op with
  | CreateTransaction => "create_transaction"
  | GetBasicInfo => "get_basic_info"
  | Rates => "rates"
  | Balances => "balances"
  | GetDepositAddress => "get_deposit_address"
  | GetCallbackAddress => "get_callback_address"
  | CreateTransfer => "create_transfer"
  | CreateWithdrawal => "create_withdrawal"
  | ConvertCoins => "convert"
  | GetConversionLimits => "convert_limits"
  | GetWithdrawalHistory => "get_withdrawal_history"
  | GetWithdrawalInfo => "get_withdrawal_info"
  | GetConversionInfo => "get_conversion_info"
  | GetTxInfo => "get_tx_info"
  | GetTxInfoMulti => "get_tx_info_multi"
  | GetTxList => "get_tx_ids"
  end.

(** A [request] that only records its arguments, as the mock of the test
    suite does; [sent op self params] is what the operation dispatches. *)
Definition record_call (_ : CoinPayments) (request_method : string)
    (kwargs : dict) : string * dict :=
  (request_method, kwargs).

Definition sent (op : operation) (self : CoinPayments) (params : option dict) :
    string * dict :=
  method (string * dict) record_call op self params.

(** The operations bound to the real [request]. *)
Definition invoke (JSON : Type) (json_loads : list byte -> option JSON)
    (urlopen : Request -> urlopen_outcome) (op : operation)
    (self : CoinPayments) (params : option dict) : list Request * result JSON :=
  method _ (call_request JSON json_loads urlopen) op self params.

(** ** Data of the test suite *)

Definition CLIENT : CoinPayments :=
  CoinPayments_init "public key" "private key" (Some "https://example.com").

Definition ipn_params : dict :=
  [ ("ipn_version", PStr "1.0");
    ("ipn_id", PStr "ce041097ff2647f3c01375eacdc90e1d");
    ("ipn_mode", PStr "hmac");
    ("merchant", PStr "8d683f17575a9544c6180206f52d4a9c");
    ("ipn_type", PStr "api");
    ("txn_id", PStr "CPCH5TRXAUDLO6ANAV2UCKDFN2");
    ("status", PStr "0");
    ("status_text", PStr "Waiting for buyer funds...");
    ("currency1", PStr "USD");
    ("currency2", PStr "BTC");
    ("amount1", PStr "1");
    ("amount2", PStr "1");
    ("fee", PStr "0.006");
    ("buyer_name", PStr "CoinPayments API");
    ("invoice", PStr "128fee28-2d37-448e-a339-71980a8950c1");
    ("received_amount", PStr "0");
    ("received_confirms", PStr "0") ].

Definition merchant_id_test : string := "8d683f17575a9544c6180206f52d4a9c".

Definition ipn_hmac : string :=
  "8c38725cfa6175938c216beecfd6b56284590b857a27fe4c0ad2438aa88e3d8289aa493c7f9e7a5a721c34b92de5c31c5f7534f215a9c17f1121c29508634861".

(** The notification of the test suite with one more field, named
    [secret]. *)
Definition ipn_params_secret : dict :=
  Dict.set "secret" (PStr "x") ipn_params.

Definition params_ab : dict := [("a", PStr "1"); ("b", PStr "2")].
Definition params_ba : dict := [("b", PStr "2"); ("a", PStr "1")].

Definition bad_gateway (_ : Request) : urlopen_outcome :=
  HTTPError 502 (encode_utf8 "<html><body>502 Bad Gateway</body></html>").

Definition empty_array (_ : Request) : urlopen_outcome :=
  Response 200 (encode_utf8 "[]").

(** The statement that a dispatch which obtains a response, of whatever
    status, returns a parsed value. *)
Definition every_response_is_returned (JSON : Type)
    (json_loads : list byte -> option JSON) : Prop :=
  forall (urlopen : Request -> urlopen_outcome) (self : CoinPayments)
         (request_method : string) (params : dict) (req : Request)
         (status : Z) (body : list byte),
    fst (request JSON json_loads urlopen self request_method params) = [req] ->
    urlopen req = Response status body \/ urlopen req = HTTPError status body ->
    exists v,
      snd (request JSON json_loads urlopen self request_method params) = Ok v.

(** ** Notions the further properties are stated with *)

Fixpoint string_forall (p : ascii -> bool) (s : string) : bool :=
  match s with
  | EmptyString => true
  | String c s' => p c && string_forall p s'
  end.

Definition lower_hex (c : ascii) : bool :=
  Urllib.contains c "0123456789abcdef".

(** The characters a form encoding is made of: the unreserved ones and
    [% + = &]. *)
Definition form_char (c : ascii) : bool :=
  Urllib.contains c Urllib.always_safe || Urllib.contains c "%+=&".

(** The pairs of a parameter set as the encoding sees them: the key and the
    [str] of the value. *)
Definition items_str (d : dict) : list (string * string) :=
  map (fun kv => (fst kv, py_str (snd kv))) d.

(** What [quote_plus] writes for one character, and its reading back. *)
Definition quote_plus_char (c : ascii) : string :=
  if Ascii.eqb c " " then "+"
  else if Urllib.contains c Urllib.always_safe then String c EmptyString
  else Urllib.percent c.

Fixpoint concat_map (f : ascii -> string) (s : string) : string :=
  match s with
  | EmptyString => EmptyString
  | String c s' => f c ++ concat_map f s'
  end.

Definition unhex (c : ascii) : N :=
  let n := N_of_ascii c in
  if N.leb 65 n then n - 55 else n - 48.

Definition unquote_plus_char (s : string) : option (ascii * string) :=
  match s with
  | EmptyString => None
  | String c r =>
      if Ascii.eqb c "+" then Some (" "%char, r)
      else if Ascii.eqb c "%" then
        match r with
        | String h (String l r') =>
            Some (ascii_of_N (16 * unhex h + unhex l), r')
        | _ => None
        end
      else Some (c, r)
  end.

(** * Properties *)

(** ** The hash against its published vectors *)

Example sha512_abc :
  HMAC.hex (SHA512.digest (encode_utf8 "abc")) =
  "ddaf35a193617abacc417349ae20413112e6fa4e89a97ea20a9eeee64b55d39a2192992a274fc1a836ba3c23a3feebbd454d4423643ce80e2a9ac94fa54ca49f".
Proof. vm_compute. reflexivity. Qed.

Example sha512_empty :
  HMAC.hex (SHA512.digest []) =
  "cf83e1357eefb8bdf1542850d66d8007d620e4050b5715dc83f4a921d36ce9ce47d0d13c5d85f2b0ff8318d2877eec2f63b931bd47417a81a538327af927da3e".
Proof. vm_compute. reflexivity. Qed.

Lemma land_mask (x : Z) : 0 <= x -> Z.land x SHA512.mask = x mod SHA512.wmod.
Proof.
  intros Hx. change SHA512.mask with (Z.ones 64).
  rewrite Z.land_ones by lia. reflexivity.
Qed.

Lemma add64_range (a b : Z) : 0 <= SHA512.add64 a b < SHA512.wmod.
Proof. unfold SHA512.add64. apply Z.mod_pos_bound. reflexivity. Qed.

(** The signature the test suite expects for its notification. *)
Example ipn_signature :
  call_calculate_hmac "mosh" ipn_params = Ok ipn_hmac.
Proof. vm_compute. reflexivity. Qed.

(** ** The test suite's runs of the verifier *)

Example test_ipn_successful :
  authenticate_ipn_request "mosh" merchant_id_test
    [("HTTP_HMAC", PStr ipn_hmac)] ipn_params None = Ok (true, None).
Proof. vm_compute. reflexivity. Qed.

Example test_ipn_no_hmac :
  authenticate_ipn_request "mosh" merchant_id_test
    [("sthing", PStr ipn_hmac)] ipn_params None
  = Ok (false, Some "No HTTP HMAC").
Proof. vm_compute. reflexivity. Qed.

Example test_ipn_wrong_hmac :
  authenticate_ipn_request "mosh" merchant_id_test
    [("HTTP_HMAC", PStr "wrong")] ipn_params None
  = Ok (false, Some "Invalid HTTP HMAC").
Proof. vm_compute. reflexivity. Qed.

Example test_ipn_no_merchant :
  authenticate_ipn_request "mosh" merchant_id_test
    [("HTTP_HMAC", PStr ipn_hmac)] (Dict.pop "merchant" ipn_params) None
  = Ok (false, Some "No merchant ID").
Proof. vm_compute. reflexivity. Qed.

Example test_ipn_wrong_merchant :
  authenticate_ipn_request "mosh" merchant_id_test
    [("HTTP_HMAC", PStr ipn_hmac)]
    (Dict.set "merchant" (PStr "wrong") (Dict.pop "merchant" ipn_params)) None
  = Ok (false, Some "Invalid merchant ID").
Proof. vm_compute. reflexivity. Qed.

Example test_ipn_no_mode :
  authenticate_ipn_request "mosh" merchant_id_test
    [("HTTP_HMAC", PStr ipn_hmac)] (Dict.pop "ipn_mode" ipn_params) None
  = Ok (false, Some "No ipn_mode").
Proof. vm_compute. reflexivity. Qed.

Example test_ipn_wrong_mode :
  authenticate_ipn_request "mosh" merchant_id_test
    [("HTTP_HMAC", PStr ipn_hmac)]
    (Dict.set "ipn_mode" (PStr "wrong") (Dict.pop "ipn_mode" ipn_params)) None
  = Ok (false, Some "Invalid ipn_mode").
Proof. vm_compute. reflexivity. Qed.

(** A field the checks do not read is signed all the same: with another
    [amount1] the signature of the test suite no longer matches. *)
Example ipn_tampered_amount :
  authenticate_ipn_request "mosh" merchant_id_test
    [("HTTP_HMAC", PStr ipn_hmac)]
    (Dict.set "amount1" (PStr "2") ipn_params) None
  = Ok (false, Some "Invalid HTTP HMAC").
Proof. vm_compute. reflexivity. Qed.

Lemma append_assoc (a b c : string) : (a ++ b) ++ c = a ++ (b ++ c).
Proof.
  induction a as [| x a IH]; simpl; [reflexivity | rewrite IH; reflexivity].
Qed.

(** The encoding lists the pairs in the order of the dict. *)
Lemma urlencode_cons (k : string) (v : pyval) (kv : string * pyval) (d : dict) :
  Urllib.urlencode ((k, v) :: kv :: d) =
  Urllib.quote_plus k ++ "=" ++ Urllib.quote_plus (py_str v) ++ "&"
    ++ Urllib.urlencode (kv :: d).
Proof.
  unfold Urllib.urlencode. cbn [map String.concat fst snd].
  rewrite !append_assoc. reflexivity.
Qed.

(** ** Facts about [dict] *)

Lemma get_set (k k' : string) (v : pyval) (d : dict) :
  Dict.get k' (Dict.set k v d) =
  if String.eqb k' k then Some v else Dict.get k' d.
Proof.
  induction d as [| [k0 v0] d IH]; simpl.
  - reflexivity.
  - destruct (String.eqb k k0) eqn:Ek; simpl.
    + apply String.eqb_eq in Ek. subst k0.
      destruct (String.eqb k' k); reflexivity.
    + rewrite IH.
      destruct (String.eqb k' k0) eqn:E0; [| reflexivity].
      destruct (String.eqb k' k) eqn:E1; [| reflexivity].
      apply String.eqb_eq in E0, E1. subst.
      rewrite String.eqb_refl in Ek. discriminate.
Qed.

Lemma get_set_same (k : string) (v : pyval) (d : dict) :
  Dict.get k (Dict.set k v d) = Some v.
Proof. rewrite get_set, String.eqb_refl. reflexivity. Qed.

Lemma get_set_other (k k' : string) (v : pyval) (d : dict) :
  k' <> k -> Dict.get k' (Dict.set k v d) = Dict.get k' d.
Proof.
  intros Hne. rewrite get_set.
  apply String.eqb_neq in Hne. rewrite Hne. reflexivity.
Qed.

(** Setting a key keeps the keys of a dict distinct and keeps every key
    where it was: a key already there is updated in place, a new one is
    put last. *)
Lemma keys_set (k : string) (v : pyval) (d : dict) :
  Dict.keys (Dict.set k v d) =
  if Dict.mem k d then Dict.keys d else (Dict.keys d ++ [k])%list.
Proof.
  unfold Dict.mem.
  induction d as [| [k0 v0] d IH]; simpl.
  - reflexivity.
  - destruct (String.eqb k k0) eqn:Ek; simpl.
    + apply String.eqb_eq in Ek. subst. reflexivity.
    + rewrite IH. destruct (Dict.get k d); reflexivity.
Qed.

Lemma mem_In_keys (k : string) (d : dict) :
  Dict.mem k d = true <-> In k (Dict.keys d).
Proof.
  unfold Dict.mem.
  induction d as [| [k0 v0] d IH]; simpl.
  - split; [discriminate | tauto].
  - destruct (String.eqb k k0) eqn:Ek; simpl.
    + apply String.eqb_eq in Ek. subst. split; auto.
    + apply String.eqb_neq in Ek. rewrite IH. split.
      * auto.
      * intros [Heq | Hin]; [congruence | assumption].
Qed.

Lemma set_NoDup (k : string) (v : pyval) (d : dict) :
  NoDup (Dict.keys d) -> NoDup (Dict.keys (Dict.set k v d)).
Proof.
  intros Hd. rewrite keys_set.
  destruct (Dict.mem k d) eqn:Hm; [assumption |].
  apply NoDup_app; [assumption | repeat constructor; simpl; tauto |].
  intros x Hx [Hk | []]. subst x.
  apply mem_In_keys in Hx. congruence.
Qed.

Lemma py_eq_refl (v : pyval) : py_eq v v = true.
Proof.
  destruct v; simpl; [apply String.eqb_refl | apply Z.eqb_refl].
Qed.

Lemma py_eq_true (a b : pyval) : py_eq a b = true <-> a = b.
Proof.
  split.
  - destruct a, b; simpl; intros H; try discriminate.
    + apply String.eqb_eq in H. congruence.
    + apply Z.eqb_eq in H. congruence.
  - intros ->. apply py_eq_refl.
Qed.

Lemma py_ne_false (x : option pyval) (v : pyval) :
  py_ne x v = false <-> x = Some v.
Proof.
  destruct x as [a |]; simpl.
  - rewrite negb_false_iff, py_eq_true. split; congruence.
  - split; discriminate.
Qed.

Lemma bind_kwargs_Ok (bound : list string) (kwargs params : dict) :
  bind_kwargs bound kwargs = Ok params -> params = kwargs.
Proof.
  unfold bind_kwargs.
  destruct (existsb _ bound); congruence.
Qed.

Lemma call_calculate_hmac_Ok (secret : string) (kwargs : dict) (sig : string) :
  call_calculate_hmac secret kwargs = Ok sig ->
  Dict.mem "secret" kwargs = false /\ sig = calculate_hmac secret kwargs.
Proof.
  unfold call_calculate_hmac, bind_kwargs. simpl.
  destruct (Dict.mem "secret" kwargs); simpl; [discriminate |].
  intros H. split; congruence.
Qed.

Lemma call_calculate_hmac_no_secret (secret : string) (kwargs : dict) :
  Dict.mem "secret" kwargs = false ->
  call_calculate_hmac secret kwargs = Ok (calculate_hmac secret kwargs).
Proof.
  intros H. unfold call_calculate_hmac, bind_kwargs. simpl.
  rewrite H. reflexivity.
Qed.

(** ** The IPN verifier *)

(** X1. When the body has no field named [secret], the verifier returns the
    outcome of the first check that fails, in the order merchant present,
    merchant expected, mode present, mode expected, header present, header
    equal to the recomputed signature. *)
Lemma ipn_first_failing_check
    (secret merchant_id : string) (http_headers http_post : dict)
    (ipn_mode : option string) :
  Dict.mem "secret" http_post = false ->
  let mode := match ipn_mode with Some m => m | None => "hmac" end in
  let merchant := Dict.get "merchant" http_post in
  let received := Dict.get "ipn_mode" http_post in
  let http_hmac := Dict.get "HTTP_HMAC" http_headers in
  let hashed := calculate_hmac secret http_post in
  let r := authenticate_ipn_request secret merchant_id http_headers http_post
             ipn_mode in
  (merchant = None -> r = Ok (false, Some "No merchant ID")) /\
  (merchant <> None -> merchant <> Some (PStr merchant_id) ->
     r = Ok (false, Some "Invalid merchant ID")) /\
  (merchant = Some (PStr merchant_id) -> received = None ->
     r = Ok (false, Some "No ipn_mode")) /\
  (merchant = Some (PStr merchant_id) -> received <> None ->
     received <> Some (PStr mode) -> r = Ok (false, Some "Invalid ipn_mode")) /\
  (merchant = Some (PStr merchant_id) -> received = Some (PStr mode) ->
     http_hmac = None -> r = Ok (false, Some "No HTTP HMAC")) /\
  (merchant = Some (PStr merchant_id) -> received = Some (PStr mode) ->
     http_hmac <> None -> http_hmac <> Some (PStr hashed) ->
     r = Ok (false, Some "Invalid HTTP HMAC")) /\
  (merchant = Some (PStr merchant_id) -> received = Some (PStr mode) ->
     http_hmac = Some (PStr hashed) -> r = Ok (true, None)).
Proof.
  intros Hsec mode merchant received http_hmac hashed r.
  assert (Hr : r =
    Ok (if is_None merchant then (false, Some "No merchant ID")
        else if py_ne merchant (PStr merchant_id)
             then (false, Some "Invalid merchant ID")
        else if is_None received then (false, Some "No ipn_mode")
        else if py_ne received (PStr mode) then (false, Some "Invalid ipn_mode")
        else if is_None http_hmac then (false, Some "No HTTP HMAC")
        else if py_ne http_hmac (PStr hashed)
             then (false, Some "Invalid HTTP HMAC")
        else (true, None))).
  { unfold r, authenticate_ipn_request.
    rewrite (call_calculate_hmac_no_secret _ _ Hsec). reflexivity. }
  assert (Hne : forall x v, x <> None -> x <> Some v ->
                  is_None x = false /\ py_ne x v = true).
  { intros x v H1 H2. destruct x as [a |]; [| congruence]. split; [reflexivity |].
    destruct (py_ne (Some a) v) eqn:E; [reflexivity |].
    apply py_ne_false in E. congruence. }
  assert (Heq : forall x v, x = Some v ->
                  is_None x = false /\ py_ne x v = false).
  { intros x v ->. split; [reflexivity | apply py_ne_false; reflexivity]. }
  rewrite Hr. clear Hr.
  repeat split; intros;
    repeat match goal with
    | H : ?x = None |- _ => rewrite H; clear H
    | H : ?x = Some ?v |- _ =>
        destruct (Heq x v H) as [-> ->]; clear H
    | H1 : ?x <> None, H2 : ?x <> Some ?v |- _ =>
        destruct (Hne x v H1 H2) as [-> ->]; clear H1 H2
    end; reflexivity.
Qed.

(** C1. The verifier does not return the outcome of the first failing check
    for every body: a body with a field named [secret] makes the signature
    call raise [TypeError] before any check; here the merchant is missing
    and no reason is returned. *)
Theorem ipn_secret_field_raises :
  authenticate_ipn_request "mosh" "8d683f17575a9544c6180206f52d4a9c"
    [("HTTP_HMAC", PStr ipn_hmac)] [("secret", PStr "x")] None
  = Raise TypeError.
Proof. vm_compute. reflexivity. Qed.

(** When the call that recomputes the signature returns, which it does for
    a body without a field named [secret]: if the merchant field equals the
    expected merchant id, the mode field equals the expected mode (default
    [hmac]) and the header equals that signature, the verifier accepts with
    no reason; the signature is the HMAC of the encoding of every body
    field. *)
Lemma ipn_accepts_valid
    (secret merchant_id : string) (http_headers http_post : dict)
    (ipn_mode : option string) (hashed : string) :
  Dict.get "merchant" http_post = Some (PStr merchant_id) ->
  Dict.get "ipn_mode" http_post =
    Some (PStr (match ipn_mode with Some m => m | None => "hmac" end)) ->
  call_calculate_hmac secret http_post = Ok hashed ->
  Dict.get "HTTP_HMAC" http_headers = Some (PStr hashed) ->
  authenticate_ipn_request secret merchant_id http_headers http_post ipn_mode
    = Ok (true, None) /\
  hashed = HMAC.hexdigest (encode_utf8 secret)
             (encode_utf8 (Urllib.urlencode http_post)).
Proof.
  intros Hm Hi Hc Hh.
  split.
  - unfold authenticate_ipn_request.
    rewrite Hc, Hm, Hi, Hh. simpl.
    rewrite !String.eqb_refl. reflexivity.
  - apply call_calculate_hmac_Ok in Hc. destruct Hc as [_ ->]. reflexivity.
Qed.

Lemma ipn_accepts_valid_witness :
  Dict.get "merchant" ipn_params = Some (PStr "8d683f17575a9544c6180206f52d4a9c") /\
  Dict.get "ipn_mode" ipn_params = Some (PStr "hmac") /\
  call_calculate_hmac "mosh" ipn_params = Ok ipn_hmac /\
  Dict.get "HTTP_HMAC" [("HTTP_HMAC", PStr ipn_hmac)] = Some (PStr ipn_hmac) /\
  authenticate_ipn_request "mosh" "8d683f17575a9544c6180206f52d4a9c"
    [("HTTP_HMAC", PStr ipn_hmac)] ipn_params None = Ok (true, None).
Proof.
  assert (H1 : Dict.get "merchant" ipn_params =
               Some (PStr "8d683f17575a9544c6180206f52d4a9c")) by reflexivity.
  assert (H2 : Dict.get "ipn_mode" ipn_params = Some (PStr "hmac")) by reflexivity.
  assert (H3 : call_calculate_hmac "mosh" ipn_params = Ok ipn_hmac)
    by (vm_compute; reflexivity).
  assert (H4 : Dict.get "HTTP_HMAC" [("HTTP_HMAC", PStr ipn_hmac)] =
               Some (PStr ipn_hmac)) by reflexivity.
  split; [exact H1 |]. split; [exact H2 |]. split; [exact H3 |].
  split; [exact H4 |].
  exact (proj1 (ipn_accepts_valid "mosh" "8d683f17575a9544c6180206f52d4a9c"
                  [("HTTP_HMAC", PStr ipn_hmac)] ipn_params None ipn_hmac
                  H1 H2 H3 H4)).
Defined.

(** C2. The verifier does not accept every notification that meets the
    three conditions: the notification of the test suite with one more
    field, named [secret], has the expected merchant id and mode, and the
    header below is the HMAC-SHA512 of the encoding of its whole body under
    the secret; the call that recomputes the signature raises [TypeError]
    and nothing is accepted. *)
Theorem ipn_valid_with_secret_field_raises :
  let header :=
    HMAC.hexdigest (encode_utf8 "mosh")
      (encode_utf8 (Urllib.urlencode ipn_params_secret)) in
  Dict.get "merchant" ipn_params_secret = Some (PStr merchant_id_test) /\
  Dict.get "ipn_mode" ipn_params_secret = Some (PStr "hmac") /\
  Dict.get "HTTP_HMAC" [("HTTP_HMAC", PStr header)] = Some (PStr header) /\
  header = calculate_hmac "mosh" ipn_params_secret /\
  header =
    "9c4e63896ad8e985f5d07bb184a894ec30339fbf93291b76ce91071ca55166ad24917ba956830c7a0c79ae2daf0c870f15fad567015a9b0c6be1588b844dffeb" /\
  authenticate_ipn_request "mosh" merchant_id_test
    [("HTTP_HMAC", PStr header)] ipn_params_secret None = Raise TypeError.
Proof.
  intros header.
  split; [reflexivity |]. split; [reflexivity |]. split; [reflexivity |].
  split; [reflexivity |].
  split; [vm_compute; reflexivity |].
  unfold authenticate_ipn_request, call_calculate_hmac, bind_kwargs.
  reflexivity.
Qed.

(** ** The signer *)

(** C4. The known vector of the test suite: the signature of [foo=bar]
    under the secret [i love oov], 128 lowercase hexadecimal characters. *)
Theorem calculate_hmac_known_vector :
  let sig := calculate_hmac "i love oov" [("foo", PStr "bar")] in
  sig = "a2367a3768a4e7e46bf4c47f54c1781c758d5441d5573caf86f3ac9b71b5125f3eb36cf63d8dc790cec1a63554e9a70ae69b3d802879cbc8fe85b3b7f876f1d7" /\
  call_calculate_hmac "i love oov" [("foo", PStr "bar")] = Ok sig /\
  sig = HMAC.hex (HMAC.hmac_sha512 (encode_utf8 "i love oov") (encode_utf8 "foo=bar")) /\
  String.length sig = 128%nat /\
  Forall (fun c => Urllib.contains c "0123456789abcdef" = true)
         (list_ascii_of_string sig).
Proof.
  vm_compute. repeat split. repeat constructor.
Qed.

(** C5. The canonical encoding of the packaged parameters of the test
    suite: pairs in insertion order joined by [&], the space as [+], the
    number 1 as the digit 1. *)
Theorem urlencode_known_vector :
  Urllib.urlencode
    [("foo", PStr "bar"); ("key", PStr "public key"); ("version", PInt 1);
     ("format", PStr "json")]
  = "foo=bar&key=public+key&version=1&format=json" /\
  _package_params CLIENT (Some [("foo", PStr "bar")]) =
    [("foo", PStr "bar"); ("key", PStr "public key"); ("version", PInt 1);
     ("format", PStr "json")] /\
  create_hmac CLIENT (_package_params CLIENT (Some [("foo", PStr "bar")])) =
    Ok (encode_utf8 "foo=bar&key=public+key&version=1&format=json",
        "d49793b8bf7492a04d709546085b3bb933e37ab4522eea4c131ee68c299e335dc2ae6db1e21f75711a851575e64fe625772e8cf0323c1819efe63e6b0e98c97b").
Proof.
  vm_compute. repeat split.
Qed.

(** C6. Insertion order is significant: the same pairs in two orders have
    different encodings, each in its own order, and different signatures
    under one secret. *)
Theorem encoding_depends_on_order :
  Permutation params_ab params_ba /\
  Urllib.urlencode params_ab = "a=1&b=2" /\
  Urllib.urlencode params_ba = "b=2&a=1" /\
  Urllib.urlencode params_ab <> Urllib.urlencode params_ba /\
  calculate_hmac "private key" params_ab <> calculate_hmac "private key" params_ba /\
  ~ (forall p q : dict, Permutation p q -> Urllib.urlencode p = Urllib.urlencode q).
Proof.
  assert (Hp : Permutation params_ab params_ba) by apply perm_swap.
  assert (Hne : Urllib.urlencode params_ab <> Urllib.urlencode params_ba).
  { apply String.eqb_neq. vm_compute. reflexivity. }
  split; [exact Hp |].
  split; [reflexivity |].
  split; [reflexivity |].
  split; [exact Hne |].
  split.
  - apply String.eqb_neq. vm_compute. reflexivity.
  - intros H. exact (Hne (H _ _ Hp)).
Qed.

(** ** The gateway client: dispatch *)

Lemma init_url (public private : string) (callback : option string) :
  url (CoinPayments_init public private callback) =
  "https://www.coinpayments.net/api.php".
Proof. reflexivity. Qed.

Lemma call_create_hmac_Ok (self : CoinPayments) (params : dict)
    (encoded : list byte) (sig : string) :
  call_create_hmac self params = Ok (encoded, sig) ->
  encoded = encode_utf8 (Urllib.urlencode params) /\
  sig = HMAC.hexdigest (encode_utf8 (private_key self)) encoded.
Proof.
  unfold call_create_hmac.
  destruct (bind_kwargs ["self"] params) as [kw | e] eqn:Hb; simpl;
    [| discriminate].
  apply bind_kwargs_Ok in Hb. subst kw.
  unfold create_hmac.
  destruct (call_calculate_hmac (private_key self) params) as [s | e] eqn:Hc;
    simpl; [| discriminate].
  apply call_calculate_hmac_Ok in Hc. destruct Hc as [_ ->].
  intros H. injection H as <- <-. split; reflexivity.
Qed.

Lemma call_create_hmac_no_reserved (self : CoinPayments) (params : dict) :
  Dict.mem "self" params = false ->
  Dict.mem "secret" params = false ->
  call_create_hmac self params =
  Ok (encode_utf8 (Urllib.urlencode params),
      calculate_hmac (private_key self) params).
Proof.
  intros Hself Hsecret.
  unfold call_create_hmac, bind_kwargs. simpl. rewrite Hself. simpl.
  unfold create_hmac.
  rewrite (call_calculate_hmac_no_secret _ _ Hsecret). reflexivity.
Qed.

Section Dispatch.

Variable JSON : Type.
Variable json_loads : list byte -> option JSON.
Variable urlopen : Request -> urlopen_outcome.

(** A POST whose parameters can be signed sends one request to the client's
    URL: the body is the encoding of the parameters and the [Hmac] header is
    the signature of that same body under the private key. *)
Lemma request_post_sends (self : CoinPayments) (params : dict) :
  Dict.mem "self" params = false ->
  Dict.mem "secret" params = false ->
  let body := encode_utf8 (Urllib.urlencode params) in
  fst (request JSON json_loads urlopen self "post" params) =
  [ {| full_url := url self;
       data := Some body;
       headers :=
         [ ("Hmac", PStr (HMAC.hexdigest (encode_utf8 (private_key self)) body));
           ("Content-type", PStr "application/x-www-form-urlencoded") ] |} ].
Proof.
  intros Hself Hsecret body.
  unfold request.
  rewrite (call_create_hmac_no_reserved self params Hself Hsecret).
  reflexivity.
Qed.

(** The same for the call [self.request("post", **kwargs)], whose keywords
    must not name a parameter of [request] either. *)
Lemma call_request_post_sends (self : CoinPayments) (kwargs : dict) :
  Dict.mem "self" kwargs = false ->
  Dict.mem "request_method" kwargs = false ->
  Dict.mem "secret" kwargs = false ->
  let body := encode_utf8 (Urllib.urlencode kwargs) in
  fst (call_request JSON json_loads urlopen self "post" kwargs) =
  [ {| full_url := url self;
       data := Some body;
       headers :=
         [ ("Hmac", PStr (HMAC.hexdigest (encode_utf8 (private_key self)) body));
           ("Content-type", PStr "application/x-www-form-urlencoded") ] |} ].
Proof.
  intros Hself Hmethod Hsecret body.
  unfold call_request, bind_kwargs. simpl existsb.
  rewrite Hself, Hmethod. simpl.
  apply request_post_sends; assumption.
Qed.

(** What a dispatch does once its request is built. *)
Lemma request_cases (self : CoinPayments) (request_method : string)
    (params : dict) :
  let out := request JSON json_loads urlopen self request_method params in
  (fst out = [] /\ exists e, snd out = Raise e) \/
  (exists req,
     fst out = [req] /\
     snd out =
       match urlopen req with
       | Response _ body | HTTPError _ body =>
           match json_loads body with
           | Some v => Ok v
           | None => Raise JSONDecodeError
           end
       | Failure e => Raise e
       end).
Proof.
  unfold request.
  destruct (call_create_hmac self params) as [[encoded sig] | e].
  - destruct (String.eqb request_method "get").
    + right. eexists. split; [reflexivity |]. simpl.
      destruct (urlopen _); reflexivity.
    + destruct (String.eqb request_method "post").
      * right. eexists. split; [reflexivity |]. simpl.
        destruct (urlopen _); reflexivity.
      * left. simpl. eauto.
  - left. simpl. eauto.
Qed.

End Dispatch.

(** C3. A POST does not send a request for every parameter set: with a
    parameter named [secret] the signature call raises [TypeError] and
    nothing is sent. *)
Theorem request_post_secret_param_raises :
  forall (JSON : Type) (json_loads : list byte -> option JSON)
         (urlopen : Request -> urlopen_outcome),
    call_request JSON json_loads urlopen CLIENT "post" [("secret", PStr "x")]
    = ([], Raise TypeError).
Proof. intros. vm_compute. reflexivity. Qed.

(** C9. Every dispatch hands at most one request to the network.  When a
    response is obtained, with a success or an error status, its body is
    parsed: the parsed value is returned when the body is valid JSON, and
    the decoder's error is raised when it is not.  When no response is
    obtained the transport error is raised. *)
Theorem request_outcome
    (JSON : Type) (json_loads : list byte -> option JSON)
    (urlopen : Request -> urlopen_outcome)
    (self : CoinPayments) (request_method : string) (params : dict) :
  let out := request JSON json_loads urlopen self request_method params in
  (List.length (fst out) <= 1)%nat /\
  forall req, fst out = [req] ->
    (forall status body,
       urlopen req = Response status body \/ urlopen req = HTTPError status body ->
       (forall v, json_loads body = Some v -> snd out = Ok v) /\
       (json_loads body = None -> snd out = Raise JSONDecodeError)) /\
    (forall e, urlopen req = Failure e -> snd out = Raise e).
Proof.
  intros out.
  destruct (request_cases JSON json_loads urlopen self request_method params)
    as [[Hfst _] | [req0 [Hfst Hsnd]]]; fold out in Hfst |- *.
  - rewrite Hfst. split; [simpl; lia |]. discriminate.
  - fold out in Hsnd. rewrite Hfst. split; [simpl; lia |].
    intros req Hreq. injection Hreq as <-.
    rewrite Hsnd. split.
    + intros status body [-> | ->]; split.
      * intros v ->. reflexivity.
      * intros ->. reflexivity.
      * intros v ->. reflexivity.
      * intros ->. reflexivity.
    + intros e ->. reflexivity.
Qed.

Lemma request_outcome_witness :
  let out := request Json.json Json.loads empty_array CLIENT "post"
               [("cmd", PStr "rates")] in
  exists req,
    fst out = [req] /\
    empty_array req = Response 200 (encode_utf8 "[]") /\
    Json.loads (encode_utf8 "[]") = Some (Json.JArray []) /\
    snd out = Ok (Json.JArray []).
Proof.
  intros out.
  assert (Hreq : exists req, fst out = [req])
    by (eexists; vm_compute; reflexivity).
  destruct Hreq as [req Hfst].
  exists req.
  split; [exact Hfst |]. split; [reflexivity |]. split; [reflexivity |].
  destruct (request_outcome Json.json Json.loads empty_array CLIENT "post"
              [("cmd", PStr "rates")]) as [_ H].
  destruct (H req Hfst) as [Hresp _].
  destruct (Hresp 200 (encode_utf8 "[]") (or_introl eq_refl)) as [Hok _].
  exact (Hok (Json.JArray []) eq_refl).
Defined.

(** C9, as stated, fails: an error response whose body is not JSON makes the
    dispatch raise the decoder's error, which is not a transport failure. *)
Lemma response_with_invalid_json_raises :
  let out := request Json.json Json.loads bad_gateway CLIENT "post"
               [("cmd", PStr "rates")] in
  (exists req, fst out = [req]) /\
  snd out = Raise JSONDecodeError /\
  ~ every_response_is_returned Json.json Json.loads.
Proof.
  intros out.
  assert (Hout : exists req, fst out = [req] /\ snd out = Raise JSONDecodeError).
  { eexists. split; vm_compute; reflexivity. }
  destruct Hout as [req [Hfst Hsnd]].
  split; [exists req; exact Hfst |]. split; [exact Hsnd |].
  intros Hclaim.
  destruct (Hclaim bad_gateway CLIENT "post" [("cmd", PStr "rates")] req 502
              (encode_utf8 "<html><body>502 Bad Gateway</body></html>")
              Hfst (or_intror eq_refl)) as [v Hv].
  fold out in Hv. rewrite Hsnd in Hv. discriminate Hv.
Qed.

(** A request method other than [get] and [post] sends nothing and
    raises; once the parameters are signed, which they are unless one is
    named [secret] or [self], what is raised is the unbound local [req]. *)
Lemma request_unknown_method
    (JSON : Type) (json_loads : list byte -> option JSON)
    (urlopen : Request -> urlopen_outcome)
    (self : CoinPayments) (request_method : string) (params : dict) :
  request_method <> "get" -> request_method <> "post" ->
  let out := request JSON json_loads urlopen self request_method params in
  fst out = [] /\
  (exists e, snd out = Raise e) /\
  (forall encoded sig,
     call_create_hmac self params = Ok (encoded, sig) ->
     out = ([], Raise UnboundLocalError)).
Proof.
  intros Hget Hpost.
  apply String.eqb_neq in Hget, Hpost.
  unfold request. rewrite Hget, Hpost.
  destruct (call_create_hmac self params) as [[encoded sig] | e]; simpl.
  - split; [reflexivity |]. split; [eauto |]. reflexivity.
  - split; [reflexivity |]. split; [eauto |]. discriminate.
Qed.

Lemma request_unknown_method_witness :
  "GET" <> "get" /\ "GET" <> "post" /\ "POST" <> "get" /\ "POST" <> "post" /\
  request Json.json Json.loads empty_array CLIENT "GET" [("cmd", PStr "rates")]
    = ([], Raise UnboundLocalError) /\
  request Json.json Json.loads empty_array CLIENT "POST" [("cmd", PStr "rates")]
    = ([], Raise UnboundLocalError).
Proof.
  assert (H1 : "GET" <> "get") by discriminate.
  assert (H2 : "GET" <> "post") by discriminate.
  assert (H3 : "POST" <> "get") by discriminate.
  assert (H4 : "POST" <> "post") by discriminate.
  assert (Hs : call_create_hmac CLIENT [("cmd", PStr "rates")] =
               Ok (encode_utf8 "cmd=rates",
                   calculate_hmac "private key" [("cmd", PStr "rates")]))
    by reflexivity.
  split; [exact H1 |]. split; [exact H2 |]. split; [exact H3 |].
  split; [exact H4 |].
  split.
  - exact (proj2 (proj2 (request_unknown_method Json.json Json.loads empty_array
                           CLIENT "GET" [("cmd", PStr "rates")] H1 H2))
             _ _ Hs).
  - exact (proj2 (proj2 (request_unknown_method Json.json Json.loads empty_array
                           CLIENT "POST" [("cmd", PStr "rates")] H3 H4))
             _ _ Hs).
Defined.

(** C10. A method other than [get] and [post] does not fail with the
    unbound local for every call: with a parameter named [secret] the
    signing on the first line of [request] raises [TypeError] before the
    method is looked at; nothing is sent. *)
Theorem request_unknown_method_secret_param_raises :
  forall (JSON : Type) (json_loads : list byte -> option JSON)
         (urlopen : Request -> urlopen_outcome),
    call_request JSON json_loads urlopen CLIENT "GET" [("secret", PStr "x")]
      = ([], Raise TypeError) /\
    request JSON json_loads urlopen CLIENT "GET" [("secret", PStr "x")]
      = ([], Raise TypeError) /\
    "GET" <> "get" /\ "GET" <> "post".
Proof.
  intros.
  split; [vm_compute; reflexivity |].
  split; [vm_compute; reflexivity |].
  split; discriminate.
Qed.

(** ** The gateway client: the operations *)

Ltac unfold_operation :=
  unfold sent, method, create_transaction, get_basic_info, rates, balances,
    get_deposit_address, get_callback_address, create_transfer,
    create_withdrawal, convert_coins, get_conversion_limits,
    get_withdrawal_history, get_withdrawal_info, get_conversion_info,
    get_tx_info, get_tx_info_multi, get_tx_list, record_call;
  cbn [fst snd]; unfold Dict.update; cbn [fold_left fst snd].

Ltac distinct_keys :=
  repeat match goal with
  | H : _ <> _ :> string |- _ => apply String.eqb_neq in H
  end.

Ltac solve_get :=
  repeat (rewrite get_set);
  repeat match goal with
  | H : String.eqb _ _ = false |- _ => rewrite H
  end;
  try reflexivity.

Lemma package_params_get (self : CoinPayments) (params : option dict) :
  let caller := match params with Some p => p | None => [] end in
  let packaged := _package_params self params in
  Dict.get "key" packaged = Some (PStr (public_key self)) /\
  Dict.get "version" packaged = Some (PInt (version self)) /\
  Dict.get "format" packaged = Some (PStr (format self)) /\
  (forall k, k <> "key" -> k <> "version" -> k <> "format" ->
     Dict.get k packaged = Dict.get k caller).
Proof.
  intros caller packaged. subst packaged.
  unfold _package_params, Dict.update. cbn [fold_left fst snd].
  fold caller.
  repeat split; try solve [solve_get].
  intros k H1 H2 H3. distinct_keys. solve_get.
Qed.

Lemma sent_cmd (op : operation) (self : CoinPayments) (params : option dict) :
  let d := snd (sent op self params) in
  fst (sent op self params) = "post" /\
  Dict.get "cmd" d = Some (PStr (command op)) /\
  (forall k, k <> "cmd" -> k <> "ipn_url" ->
     Dict.get k d = Dict.get k (_package_params self params)).
Proof.
  intros d. subst d.
  destruct op; unfold_operation;
    (split; [reflexivity |]); (split; [apply get_set_same |]);
    intros k H1 H2; distinct_keys;
    try destruct (negb (String.eqb (ipn_url self) ""));
    solve_get.
Qed.

Lemma sent_ipn_url (op : operation) (self : CoinPayments) (params : option dict) :
  let caller := match params with Some p => p | None => [] end in
  let d := snd (sent op self params) in
  (op = CreateTransaction \/ op = GetCallbackAddress ->
     ipn_url self <> "" -> Dict.get "ipn_url" d = Some (PStr (ipn_url self))) /\
  (op = CreateTransaction \/ op = GetCallbackAddress ->
     ipn_url self = "" -> Dict.get "ipn_url" d = Dict.get "ipn_url" caller) /\
  (op <> CreateTransaction -> op <> GetCallbackAddress ->
     Dict.get "ipn_url" d = Dict.get "ipn_url" caller).
Proof.
  intros caller d.
  assert (Hpack : Dict.get "ipn_url" (_package_params self params) =
                  Dict.get "ipn_url" caller).
  { apply (package_params_get self params); discriminate. }
  subst d.
  split; [| split].
  - intros Hop Hurl. apply String.eqb_neq in Hurl.
    destruct Hop as [-> | ->]; unfold_operation; rewrite Hurl; cbn [negb];
      solve_get.
  - intros Hop Hurl.
    destruct Hop as [-> | ->]; unfold_operation; rewrite Hurl; cbn [negb String.eqb];
      rewrite get_set_other by discriminate; exact Hpack.
  - intros H1 H2.
    destruct op; try congruence; unfold_operation;
      rewrite get_set_other by discriminate; exact Hpack.
Qed.

(** C7. Every operation merges [key], [version] and [format] into the
    caller's parameters (an empty dict by default), the injected values
    replacing a caller's entry of the same name and every other entry kept
    as it was, then sets [cmd] to the operation's command and dispatches a
    POST with the result. *)
Theorem operation_merges_params
    (op : operation) (self : CoinPayments) (params : option dict) :
  let caller := match params with Some p => p | None => [] end in
  let packaged := _package_params self params in
  let d := snd (sent op self params) in
  (Dict.get "key" packaged = Some (PStr (public_key self)) /\
   Dict.get "version" packaged = Some (PInt (version self)) /\
   Dict.get "format" packaged = Some (PStr (format self)) /\
   (forall k, k <> "key" -> k <> "version" -> k <> "format" ->
      Dict.get k packaged = Dict.get k caller)) /\
  (Dict.get "key" d = Some (PStr (public_key self)) /\
   Dict.get "version" d = Some (PInt (version self)) /\
   Dict.get "format" d = Some (PStr (format self)) /\
   Dict.get "cmd" d = Some (PStr (command op))) /\
  (forall k, k <> "key" -> k <> "version" -> k <> "format" -> k <> "cmd" ->
     k <> "ipn_url" -> Dict.get k d = Dict.get k caller) /\
  (op <> CreateTransaction -> op <> GetCallbackAddress ->
     Dict.get "ipn_url" d = Dict.get "ipn_url" caller) /\
  (forall (R : Type) (self_request : CoinPayments -> string -> dict -> R),
     method R self_request op self params = self_request self "post" d).
Proof.
  intros caller packaged d.
  destruct (package_params_get self params) as [Hk [Hv [Hf Hother]]].
  destruct (sent_cmd op self params) as [_ [Hcmd Hkeep]].
  fold caller packaged in Hk, Hv, Hf, Hother. fold d packaged in Hcmd, Hkeep.
  split; [repeat split; assumption |].
  split.
  - repeat split; try exact Hcmd;
      (rewrite Hkeep by discriminate; assumption).
  - split.
    + intros k H1 H2 H3 H4 H5. rewrite Hkeep by assumption. auto.
    + split.
      * apply (sent_ipn_url op self params).
      * intros R rq. subst d. destruct op; reflexivity.
Qed.

Lemma operation_merges_params_witness :
  let caller :=
    [("currency", PStr "BTC"); ("key", PStr "mine"); ("cmd", PStr "balances")] in
  let d := snd (sent GetDepositAddress CLIENT (Some caller)) in
  Dict.get "currency" d = Some (PStr "BTC") /\
  Dict.get "key" d = Some (PStr "public key") /\
  Dict.get "version" d = Some (PInt 1) /\
  Dict.get "format" d = Some (PStr "json") /\
  Dict.get "cmd" d = Some (PStr "get_deposit_address") /\
  Dict.get "ipn_url" d = None.
Proof.
  intros caller d.
  destruct (operation_merges_params GetDepositAddress CLIENT (Some caller))
    as [_ [[Hk [Hv [Hf Hc]]] [Hother [Hipn _]]]].
  split.
  - exact (Hother "currency" ltac:(discriminate) ltac:(discriminate)
             ltac:(discriminate) ltac:(discriminate) ltac:(discriminate)).
  - split; [exact Hk |]. split; [exact Hv |]. split; [exact Hf |].
    split; [exact Hc |].
    exact (Hipn ltac:(discriminate) ltac:(discriminate)).
Defined.

(** C8. Two operations, creating a transaction and getting a callback
    address, put the client's callback URL under [ipn_url] when it is not
    empty, in place of a caller's [ipn_url]; with an empty callback URL, and
    in every other operation, [ipn_url] is the caller's, if any. *)
Theorem operation_ipn_url
    (op : operation) (self : CoinPayments) (params : option dict) :
  let caller := match params with Some p => p | None => [] end in
  let d := snd (sent op self params) in
  (op = CreateTransaction \/ op = GetCallbackAddress ->
     ipn_url self <> "" -> Dict.get "ipn_url" d = Some (PStr (ipn_url self))) /\
  (op = CreateTransaction \/ op = GetCallbackAddress ->
     ipn_url self = "" -> Dict.get "ipn_url" d = Dict.get "ipn_url" caller) /\
  (op <> CreateTransaction -> op <> GetCallbackAddress ->
     Dict.get "ipn_url" d = Dict.get "ipn_url" caller).
Proof.
  exact (sent_ipn_url op self params).
Qed.

Lemma operation_ipn_url_witness :
  let caller := [("amount", PInt 10); ("ipn_url", PStr "https://caller.test")] in
  let quiet := CoinPayments_init "public key" "private key" None in
  Dict.get "ipn_url" (snd (sent CreateTransaction CLIENT (Some caller)))
    = Some (PStr "https://example.com") /\
  Dict.get "ipn_url" (snd (sent GetCallbackAddress CLIENT None))
    = Some (PStr "https://example.com") /\
  Dict.get "ipn_url" (snd (sent CreateTransaction quiet (Some caller)))
    = Some (PStr "https://caller.test") /\
  Dict.get "ipn_url" (snd (sent GetCallbackAddress quiet None)) = None /\
  Dict.get "ipn_url" (snd (sent CreateWithdrawal CLIENT (Some caller)))
    = Some (PStr "https://caller.test") /\
  Dict.get "ipn_url" (snd (sent Rates CLIENT None)) = None.
Proof.
  intros caller quiet.
  split.
  - exact (proj1 (operation_ipn_url CreateTransaction CLIENT (Some caller))
             (or_introl eq_refl) ltac:(discriminate)).
  - split.
    + exact (proj1 (operation_ipn_url GetCallbackAddress CLIENT None)
               (or_intror eq_refl) ltac:(discriminate)).
    + split.
      * exact (proj1 (proj2 (operation_ipn_url CreateTransaction quiet (Some caller)))
                 (or_introl eq_refl) eq_refl).
      * split.
        -- exact (proj1 (proj2 (operation_ipn_url GetCallbackAddress quiet None))
                    (or_intror eq_refl) eq_refl).
        -- split.
           ++ exact (proj2 (proj2 (operation_ipn_url CreateWithdrawal CLIENT
                                     (Some caller)))
                       ltac:(discriminate) ltac:(discriminate)).
           ++ exact (proj2 (proj2 (operation_ipn_url Rates CLIENT None))
                       ltac:(discriminate) ltac:(discriminate)).
Defined.

(** * Further properties of the code *)

(** ** The IPN verifier: errors, soundness, shape of the result *)

Lemma ipn_first_failing_check_witness :
  Dict.mem "secret" (Dict.pop "ipn_mode" ipn_params) = false /\
  authenticate_ipn_request "mosh" merchant_id_test
    [("HTTP_HMAC", PStr ipn_hmac)] (Dict.pop "ipn_mode" ipn_params) None
  = Ok (false, Some "No ipn_mode").
Proof.
  assert (Hs : Dict.mem "secret" (Dict.pop "ipn_mode" ipn_params) = false)
    by reflexivity.
  split; [exact Hs |].
  exact (proj1 (proj2 (proj2
           (ipn_first_failing_check "mosh" merchant_id_test
              [("HTTP_HMAC", PStr ipn_hmac)] (Dict.pop "ipn_mode" ipn_params)
              None Hs)))
         eq_refl eq_refl).
Defined.

(** X2. A body with a field named [secret] makes the verifier raise
    [TypeError], whatever the secret, the merchant id, the headers, the mode
    and the other fields: the signature call comes before every check. *)
Theorem ipn_secret_field_TypeError
    (secret merchant_id : string) (http_headers http_post : dict)
    (ipn_mode : option string) :
  Dict.mem "secret" http_post = true ->
  authenticate_ipn_request secret merchant_id http_headers http_post ipn_mode
    = Raise TypeError.
Proof.
  intros H.
  unfold authenticate_ipn_request, call_calculate_hmac, bind_kwargs.
  cbn [existsb]. rewrite H. reflexivity.
Qed.

Lemma ipn_secret_field_TypeError_witness :
  Dict.mem "secret" [("merchant", PStr "m"); ("secret", PInt 7)] = true /\
  authenticate_ipn_request "k" "m" [] [("merchant", PStr "m"); ("secret", PInt 7)]
    (Some "hmac") = Raise TypeError.
Proof.
  assert (Hs : Dict.mem "secret" [("merchant", PStr "m"); ("secret", PInt 7)]
               = true) by reflexivity.
  split; [exact Hs |].
  exact (ipn_secret_field_TypeError "k" "m" []
           [("merchant", PStr "m"); ("secret", PInt 7)] (Some "hmac") Hs).
Defined.

(** X3. An accepted notification is genuine: whenever the verifier answers
    [true], the merchant field is the expected merchant id as a string, the
    mode field is the expected mode, and the header is the signature of the
    whole body under the secret. *)
Theorem ipn_accept_sound
    (secret merchant_id : string) (http_headers http_post : dict)
    (ipn_mode : option string) (reason : option string) :
  authenticate_ipn_request secret merchant_id http_headers http_post ipn_mode
    = Ok (true, reason) ->
  reason = None /\
  Dict.get "merchant" http_post = Some (PStr merchant_id) /\
  Dict.get "ipn_mode" http_post =
    Some (PStr (match ipn_mode with Some m => m | None => "hmac" end)) /\
  Dict.get "HTTP_HMAC" http_headers =
    Some (PStr (HMAC.hexdigest (encode_utf8 secret)
                  (encode_utf8 (Urllib.urlencode http_post)))) /\
  Dict.mem "secret" http_post = false.
Proof.
  unfold authenticate_ipn_request.
  destruct (call_calculate_hmac secret http_post) as [hashed | e] eqn:Hc;
    cbn [bind]; [| discriminate].
  apply call_calculate_hmac_Ok in Hc. destruct Hc as [Hsec ->].
  destruct (is_None (Dict.get "merchant" http_post)); [discriminate |].
  destruct (py_ne (Dict.get "merchant" http_post) (PStr merchant_id)) eqn:Em;
    [discriminate |].
  destruct (is_None (Dict.get "ipn_mode" http_post)); [discriminate |].
  destruct (py_ne (Dict.get "ipn_mode" http_post) _) eqn:Ei; [discriminate |].
  destruct (is_None (Dict.get "HTTP_HMAC" http_headers)); [discriminate |].
  destruct (py_ne (Dict.get "HTTP_HMAC" http_headers) _) eqn:Eh; [discriminate |].
  intros H. injection H as <-.
  apply py_ne_false in Em, Ei, Eh.
  repeat split; assumption.
Qed.

Lemma ipn_accept_sound_witness :
  authenticate_ipn_request "mosh" merchant_id_test
    [("HTTP_HMAC", PStr ipn_hmac)] ipn_params None = Ok (true, None) /\
  Dict.get "HTTP_HMAC" [("HTTP_HMAC", PStr ipn_hmac)] =
    Some (PStr (HMAC.hexdigest (encode_utf8 "mosh")
                  (encode_utf8 (Urllib.urlencode ipn_params)))).
Proof.
  assert (H : authenticate_ipn_request "mosh" merchant_id_test
                [("HTTP_HMAC", PStr ipn_hmac)] ipn_params None = Ok (true, None))
    by (vm_compute; reflexivity).
  split; [exact H |].
  exact (proj1 (proj2 (proj2 (proj2
           (ipn_accept_sound "mosh" merchant_id_test
              [("HTTP_HMAC", PStr ipn_hmac)] ipn_params None None H))))).
Defined.

(** X4. The pair the verifier returns is [(True, None)] or [False] with one of
    the six reasons: a rejection always carries a reason and an acceptance
    never does. *)
Theorem ipn_result_shape
    (secret merchant_id : string) (http_headers http_post : dict)
    (ipn_mode : option string) (b : bool) (reason : option string) :
  authenticate_ipn_request secret merchant_id http_headers http_post ipn_mode
    = Ok (b, reason) ->
  (b = true /\ reason = None) \/
  (b = false /\
   exists msg, reason = Some msg /\
     In msg ["No merchant ID"; "Invalid merchant ID"; "No ipn_mode";
             "Invalid ipn_mode"; "No HTTP HMAC"; "Invalid HTTP HMAC"]).
Proof.
  unfold authenticate_ipn_request.
  destruct (call_calculate_hmac secret http_post) as [hashed | e];
    cbn [bind]; [| discriminate].
  repeat match goal with
  | |- context [if ?c then _ else _] => destruct c
  end;
  intros H; injection H as <- <-;
  (left; split; reflexivity) ||
  (right; split; [reflexivity |]; eexists; split; [reflexivity |];
   simpl; tauto).
Qed.

Lemma ipn_result_shape_witness :
  authenticate_ipn_request "mosh" merchant_id_test
    [("HTTP_HMAC", PStr "wrong")] ipn_params None
    = Ok (false, Some "Invalid HTTP HMAC") /\
  ((false = true /\ Some "Invalid HTTP HMAC" = None) \/
   (false = false /\
    exists msg, Some "Invalid HTTP HMAC" = Some msg /\
      In msg ["No merchant ID"; "Invalid merchant ID"; "No ipn_mode";
              "Invalid ipn_mode"; "No HTTP HMAC"; "Invalid HTTP HMAC"])).
Proof.
  assert (H : authenticate_ipn_request "mosh" merchant_id_test
                [("HTTP_HMAC", PStr "wrong")] ipn_params None
              = Ok (false, Some "Invalid HTTP HMAC"))
    by (vm_compute; reflexivity).
  split; [exact H |].
  exact (ipn_result_shape "mosh" merchant_id_test [("HTTP_HMAC", PStr "wrong")]
           ipn_params None false (Some "Invalid HTTP HMAC") H).
Defined.

(** ** The signer: the form of a signature *)

Lemma be_unpack_length (n : nat) (z : Z) :
  List.length (SHA512.be_unpack n z) = n.
Proof.
  revert z. induction n as [| n IH]; intros z; simpl.
  - reflexivity.
  - rewrite length_app, IH. simpl. lia.
Qed.

Lemma digest_length (msg : list byte) :
  List.length (SHA512.digest msg) = 64%nat.
Proof.
  unfold SHA512.digest. cbv zeta.
  set (h := fold_left SHA512.compress _ _).
  cbn [flat_map]. rewrite !length_app, !be_unpack_length. reflexivity.
Qed.

Lemma byteZ_range (b : byte) : 0 <= SHA512.byteZ b < 256.
Proof.
  unfold SHA512.byteZ. pose proof (Byte.to_N_bounded b). lia.
Qed.

Lemma hex_digit_lower (z : Z) :
  0 <= z < 16 -> lower_hex (HMAC.hex_digit z) = true.
Proof.
  intros Hz.
  assert (H : z = 0 \/ z = 1 \/ z = 2 \/ z = 3 \/ z = 4 \/ z = 5 \/ z = 6 \/
              z = 7 \/ z = 8 \/ z = 9 \/ z = 10 \/ z = 11 \/ z = 12 \/
              z = 13 \/ z = 14 \/ z = 15) by lia.
  repeat (destruct H as [-> | H]; [reflexivity |]). subst z. reflexivity.
Qed.

Lemma hex_form (bs : list byte) :
  String.length (HMAC.hex bs) = (2 * List.length bs)%nat /\
  string_forall lower_hex (HMAC.hex bs) = true.
Proof.
  induction bs as [| b bs [IHl IHc]]; [split; reflexivity |].
  cbn [HMAC.hex String.length List.length string_forall].
  pose proof (byteZ_range b) as Hb.
  split; [rewrite IHl; lia |].
  rewrite IHc, !hex_digit_lower; [reflexivity | |].
  - apply Z.mod_pos_bound. lia.
  - split; [apply Z.div_pos; lia | apply Z.div_lt_upper_bound; lia].
Qed.

(** X5. Whatever the secret and the parameters, a signature is 128 lowercase
    hexadecimal characters. *)
Theorem calculate_hmac_form (secret : string) (params : dict) :
  String.length (calculate_hmac secret params) = 128%nat /\
  string_forall lower_hex (calculate_hmac secret params) = true.
Proof.
  unfold calculate_hmac, HMAC.hexdigest, HMAC.hmac_sha512. cbv zeta.
  destruct (hex_form (SHA512.digest
              (map (HMAC.xor_byte 92)
                   (HMAC.block_key (encode_utf8 secret)) ++
               SHA512.digest
                 (map (HMAC.xor_byte 54)
                      (HMAC.block_key (encode_utf8 secret)) ++
                  encode_utf8 (Urllib.urlencode params)))))
    as [Hl Hc].
  rewrite digest_length in Hl. split; assumption.
Qed.

(** ** The encoding: its alphabet and what it determines *)

Lemma string_forall_app (p : ascii -> bool) (a b : string) :
  string_forall p (a ++ b) = string_forall p a && string_forall p b.
Proof.
  induction a as [| c a IH]; simpl; [reflexivity |].
  rewrite IH, andb_assoc. reflexivity.
Qed.

Lemma contains_app (c : ascii) (a b : string) :
  Urllib.contains c (a ++ b) = Urllib.contains c a || Urllib.contains c b.
Proof.
  induction a as [| x a IH]; simpl; [reflexivity |].
  rewrite IH, orb_assoc. reflexivity.
Qed.

Lemma append_nil_r (a : string) : a ++ "" = a.
Proof. induction a as [| c a IH]; simpl; [| rewrite IH]; reflexivity. Qed.

Lemma replace_space_app (a b : string) :
  Urllib.replace_space (a ++ b) =
  Urllib.replace_space a ++ Urllib.replace_space b.
Proof.
  induction a as [| c a IH]; simpl; [| rewrite IH]; reflexivity.
Qed.

(** The facts about one character hold by inspection of the 256 bytes. *)
Ltac each_byte c :=
  destruct c as [[] [] [] [] [] [] [] []]; reflexivity.

Lemma quote_char_no_space (c : ascii) :
  Ascii.eqb c " " = false ->
  (if Urllib.contains c Urllib.always_safe || Urllib.contains c ""
   then String c EmptyString else Urllib.percent c) = quote_plus_char c.
Proof.
  intros H. unfold quote_plus_char. rewrite H.
  cbn [Urllib.contains]. rewrite orb_false_r. reflexivity.
Qed.

Lemma quote_char_space (c : ascii) :
  Urllib.replace_space
    (if Urllib.contains c Urllib.always_safe || Urllib.contains c " "
     then String c EmptyString else Urllib.percent c) = quote_plus_char c.
Proof. each_byte c. Qed.

Lemma quote_plus_char_form (c : ascii) :
  string_forall form_char (quote_plus_char c) = true /\
  Urllib.contains "=" (quote_plus_char c) = false /\
  Urllib.contains "&" (quote_plus_char c) = false.
Proof.
  split; [| split]; each_byte c.
Qed.

Lemma unquote_plus_char_quote (c : ascii) (r : string) :
  unquote_plus_char (quote_plus_char c ++ r) = Some (c, r).
Proof. each_byte c. Qed.

(** [quote_plus] works character by character. *)
Lemma quote_plus_concat_map (s : string) :
  Urllib.quote_plus s = concat_map quote_plus_char s.
Proof.
  unfold Urllib.quote_plus.
  destruct (Urllib.contains " " s) eqn:Hsp; cbn [negb].
  - clear Hsp. induction s as [| c s IH]; [reflexivity |].
    cbn [Urllib.quote concat_map].
    rewrite replace_space_app, quote_char_space, IH. reflexivity.
  - induction s as [| c s IH]; [reflexivity |].
    cbn [Urllib.contains] in Hsp. apply orb_false_iff in Hsp.
    destruct Hsp as [Hc Hs]. rewrite Ascii.eqb_sym in Hc.
    cbn [Urllib.quote concat_map].
    rewrite (quote_char_no_space c Hc), (IH Hs). reflexivity.
Qed.

Lemma quote_plus_form (s : string) :
  string_forall form_char (Urllib.quote_plus s) = true /\
  Urllib.contains "=" (Urllib.quote_plus s) = false /\
  Urllib.contains "&" (Urllib.quote_plus s) = false.
Proof.
  rewrite quote_plus_concat_map.
  induction s as [| c s [IH1 [IH2 IH3]]]; [repeat split |].
  cbn [concat_map].
  destruct (quote_plus_char_form c) as [H1 [H2 H3]].
  rewrite string_forall_app, !contains_app, H1, H2, H3, IH1, IH2, IH3.
  repeat split.
Qed.

Lemma concat_map_quote_inj (s t : string) :
  concat_map quote_plus_char s = concat_map quote_plus_char t -> s = t.
Proof.
  revert t. induction s as [| c s IH]; intros [| c' t] H.
  - reflexivity.
  - apply (f_equal unquote_plus_char) in H. cbn [concat_map] in H.
    rewrite unquote_plus_char_quote in H. discriminate H.
  - apply (f_equal unquote_plus_char) in H. cbn [concat_map] in H.
    rewrite unquote_plus_char_quote in H. discriminate H.
  - apply (f_equal unquote_plus_char) in H. cbn [concat_map] in H.
    rewrite !unquote_plus_char_quote in H.
    injection H as -> H. rewrite (IH t H). reflexivity.
Qed.

Lemma quote_plus_inj (s t : string) :
  Urllib.quote_plus s = Urllib.quote_plus t -> s = t.
Proof.
  rewrite !quote_plus_concat_map. apply concat_map_quote_inj.
Qed.

(** X7. Two different strings never have the same quoting. *)
Theorem quote_plus_injective (s t : string) :
  s <> t -> Urllib.quote_plus s <> Urllib.quote_plus t.
Proof.
  intros Hne Heq. exact (Hne (quote_plus_inj s t Heq)).
Qed.

Lemma quote_plus_injective_witness :
  "a b" <> "a+b" /\ Urllib.quote_plus "a b" <> Urllib.quote_plus "a+b".
Proof.
  assert (H : "a b" <> "a+b") by discriminate.
  split; [exact H |].
  exact (quote_plus_injective "a b" "a+b" H).
Defined.

Lemma urlencode_unfold (k : string) (v : pyval) (d : dict) :
  Urllib.urlencode ((k, v) :: d) =
  Urllib.quote_plus k ++
  String "=" (Urllib.quote_plus (py_str v) ++
              match d with
              | [] => ""
              | _ :: _ => String "&" (Urllib.urlencode d)
              end).
Proof.
  destruct d as [| kv d].
  - unfold Urllib.urlencode. cbn [map String.concat fst snd].
    rewrite append_nil_r. reflexivity.
  - rewrite urlencode_cons. reflexivity.
Qed.

(** X6. An encoding is made of unreserved characters and of [% + = &] only:
    no space, no control character and no byte above 127 is ever sent. *)
Theorem urlencode_alphabet (d : dict) :
  string_forall form_char (Urllib.urlencode d) = true.
Proof.
  induction d as [| [k v] d IH]; [reflexivity |].
  rewrite urlencode_unfold.
  destruct (quote_plus_form k) as [Hk _].
  destruct (quote_plus_form (py_str v)) as [Hv _].
  rewrite string_forall_app, Hk. cbn [string_forall andb].
  rewrite string_forall_app, Hv.
  destruct d as [| kv d]; [reflexivity |].
  cbn [string_forall]. rewrite IH. reflexivity.
Qed.

Lemma split_at (sep : ascii) (a a' b b' : string) :
  Urllib.contains sep a = false -> Urllib.contains sep a' = false ->
  a ++ String sep b = a' ++ String sep b' -> a = a' /\ b = b'.
Proof.
  revert a'. induction a as [| c a IH]; intros [| c' a'] Ha Ha' H;
    cbn [append Urllib.contains] in *.
  - injection H as ->. split; reflexivity.
  - injection H as <- _. rewrite Ascii.eqb_refl in Ha'. discriminate Ha'.
  - injection H as -> _. rewrite Ascii.eqb_refl in Ha. discriminate Ha.
  - injection H as -> H.
    apply orb_false_iff in Ha, Ha'.
    destruct (IH a' (proj2 Ha) (proj2 Ha') H) as [-> ->].
    split; reflexivity.
Qed.

Lemma no_sep_inside (sep : ascii) (a a' b' : string) :
  Urllib.contains sep a = false -> a <> a' ++ String sep b'.
Proof.
  intros Ha ->. rewrite contains_app in Ha.
  cbn [Urllib.contains] in Ha. rewrite Ascii.eqb_refl, orb_true_r in Ha.
  discriminate Ha.
Qed.

Lemma urlencode_inj (d1 d2 : dict) :
  Urllib.urlencode d1 = Urllib.urlencode d2 -> items_str d1 = items_str d2.
Proof.
  revert d2. induction d1 as [| [k v] d1 IH]; intros [| [k' v'] d2] H.
  - reflexivity.
  - exfalso. rewrite urlencode_unfold in H.
    exact (no_sep_inside "=" "" _ _ eq_refl H).
  - exfalso. rewrite urlencode_unfold in H. symmetry in H.
    exact (no_sep_inside "=" "" _ _ eq_refl H).
  - rewrite !urlencode_unfold in H.
    destruct (quote_plus_form k) as [_ [Hk _]].
    destruct (quote_plus_form k') as [_ [Hk' _]].
    destruct (quote_plus_form (py_str v)) as [_ [_ Hv]].
    destruct (quote_plus_form (py_str v')) as [_ [_ Hv']].
    destruct (split_at "=" _ _ _ _ Hk Hk' H) as [Ek Erest].
    apply quote_plus_inj in Ek. subst k'.
    assert (Hpair : py_str v = py_str v' /\ items_str d1 = items_str d2).
    { destruct d1 as [| p1 d1], d2 as [| p2 d2].
      - rewrite !append_nil_r in Erest. apply quote_plus_inj in Erest.
        split; [exact Erest | reflexivity].
      - exfalso. rewrite append_nil_r in Erest.
        exact (no_sep_inside "&" _ _ _ Hv Erest).
      - exfalso. rewrite append_nil_r in Erest. symmetry in Erest.
        exact (no_sep_inside "&" _ _ _ Hv' Erest).
      - destruct (split_at "&" _ _ _ _ Hv Hv' Erest) as [Ev Etail].
        apply quote_plus_inj in Ev. split; [exact Ev |].
        exact (IH _ Etail). }
    destruct Hpair as [Ev Ed].
    cbn [items_str map fst snd]. fold (items_str d1). fold (items_str d2).
    rewrite Ev, Ed. reflexivity.
Qed.

(** X8. The encoding determines the parameters: two parameter sets that differ
    in a key, in the [str] of a value, in the number of their entries or in
    their order are never encoded alike, so that no two of them share the
    bytes that are signed. *)
Theorem urlencode_injective (d1 d2 : dict) :
  items_str d1 <> items_str d2 -> Urllib.urlencode d1 <> Urllib.urlencode d2.
Proof.
  intros Hne Heq. exact (Hne (urlencode_inj d1 d2 Heq)).
Qed.

Lemma urlencode_injective_witness :
  items_str [("a", PStr "1&b=2")] <> items_str params_ab /\
  Urllib.urlencode [("a", PStr "1&b=2")] <> Urllib.urlencode params_ab.
Proof.
  assert (H : items_str [("a", PStr "1&b=2")] <> items_str params_ab)
    by discriminate.
  split; [exact H |].
  exact (urlencode_injective [("a", PStr "1&b=2")] params_ab H).
Defined.

(** ** More facts about [dict] *)

Lemma mem_set (k k' : string) (v : pyval) (d : dict) :
  Dict.mem k' (Dict.set k v d) = String.eqb k' k || Dict.mem k' d.
Proof.
  unfold Dict.mem. rewrite get_set.
  destruct (String.eqb k' k); reflexivity.
Qed.

Lemma set_fresh (k : string) (v : pyval) (d : dict) :
  Dict.mem k d = false -> Dict.set k v d = (d ++ [(k, v)])%list.
Proof.
  unfold Dict.mem.
  induction d as [| [k0 v0] d IH]; simpl; intros H; [reflexivity |].
  destruct (String.eqb k k0); [discriminate H |].
  rewrite (IH H). reflexivity.
Qed.

Lemma set_present (k : string) (v : pyval) (d : dict) :
  Dict.get k d = Some v -> Dict.set k v d = d.
Proof.
  induction d as [| [k0 v0] d IH]; simpl; intros H; [discriminate H |].
  destruct (String.eqb k k0) eqn:Ek.
  - apply String.eqb_eq in Ek. congruence.
  - rewrite (IH H). reflexivity.
Qed.

Lemma set_extends (root : list string) (allowed : list string)
    (k : string) (v : pyval) (d : dict) :
  (exists extra, Dict.keys d = (root ++ extra)%list /\ incl extra allowed) ->
  In k allowed ->
  exists extra,
    Dict.keys (Dict.set k v d) = (root ++ extra)%list /\ incl extra allowed.
Proof.
  intros [extra [Hk Hi]] Hin. rewrite keys_set.
  destruct (Dict.mem k d).
  - exists extra. split; assumption.
  - exists (extra ++ [k])%list. split.
    + rewrite Hk, <- app_assoc. reflexivity.
    + apply incl_app; [assumption |].
      intros x [<- | []]. assumption.
Qed.

Lemma method_dispatch (R : Type)
    (self_request : CoinPayments -> string -> dict -> R)
    (op : operation) (self : CoinPayments) (params : option dict) :
  method R self_request op self params =
  self_request self "post" (snd (sent op self params)).
Proof. destruct op; reflexivity. Qed.

(** An operation only adds the keys it injects: for every other key, the
    dispatched dict holds it exactly when the caller's does. *)
Lemma sent_mem (op : operation) (self : CoinPayments) (params : option dict)
    (k : string) :
  let caller := match params with Some p => p | None => [] end in
  k <> "key" -> k <> "version" -> k <> "format" -> k <> "ipn_url" ->
  k <> "cmd" ->
  Dict.mem k (snd (sent op self params)) = Dict.mem k caller.
Proof.
  intros caller H1 H2 H3 H4 H5. unfold Dict.mem.
  destruct (sent_cmd op self params) as [_ [_ Hkeep]].
  rewrite (Hkeep k H5 H4).
  destruct (package_params_get self params) as [_ [_ [_ Hother]]].
  rewrite (Hother k H1 H2 H3). reflexivity.
Qed.

(** ** The gateway client: what is sent and what is refused *)

Section Sending.

Variable JSON : Type.
Variable json_loads : list byte -> option JSON.
Variable urlopen : Request -> urlopen_outcome.

Lemma call_request_reserved (self : CoinPayments) (request_method : string)
    (kwargs : dict) :
  Dict.mem "self" kwargs = true \/ Dict.mem "request_method" kwargs = true \/
  Dict.mem "secret" kwargs = true ->
  call_request JSON json_loads urlopen self request_method kwargs
  = ([], Raise TypeError).
Proof.
  intros H.
  unfold call_request, bind_kwargs. cbn [existsb].
  destruct (Dict.mem "self" kwargs) eqn:Hself; [reflexivity |].
  destruct (Dict.mem "request_method" kwargs) eqn:Hm; [reflexivity |].
  cbn [orb].
  destruct H as [H | [H | H]]; try discriminate H.
  unfold request, call_create_hmac, bind_kwargs. cbn [existsb].
  rewrite Hself. cbn [orb bind].
  unfold create_hmac, call_calculate_hmac, bind_kwargs. cbn [existsb].
  rewrite H. reflexivity.
Qed.

(** X10. A call of [request] whose keywords include [self], [request_method] or
    [secret] raises [TypeError] and sends nothing, whatever the method: the
    parameters are bound and signed before the method is looked at. *)
Theorem request_refuses_reserved_names (self : CoinPayments)
    (request_method : string) (kwargs : dict) :
  Dict.mem "self" kwargs = true \/ Dict.mem "request_method" kwargs = true \/
  Dict.mem "secret" kwargs = true ->
  call_request JSON json_loads urlopen self request_method kwargs
  = ([], Raise TypeError).
Proof. apply call_request_reserved. Qed.

(** X11. A GET whose keywords name no parameter of the call ([self],
    [request_method], [secret]) signs the keywords and sends none of them:
    the one request has no body, the bare URL of the client and the
    signature as its only header. *)
Theorem request_get_sends (self : CoinPayments) (kwargs : dict) :
  Dict.mem "self" kwargs = false ->
  Dict.mem "request_method" kwargs = false ->
  Dict.mem "secret" kwargs = false ->
  fst (call_request JSON json_loads urlopen self "get" kwargs) =
  [ {| full_url := url self;
       data := None;
       headers :=
         [ ("Hmac", PStr (HMAC.hexdigest (encode_utf8 (private_key self))
                            (encode_utf8 (Urllib.urlencode kwargs)))) ] |} ].
Proof.
  intros Hself Hmethod Hsecret.
  unfold call_request, bind_kwargs. cbn [existsb].
  rewrite Hself, Hmethod. cbn [orb].
  unfold request.
  rewrite (call_create_hmac_no_reserved self kwargs Hself Hsecret).
  reflexivity.
Qed.

(** X12. A POST whose keywords name no parameter of the call sends one request
    to the client's URL; its body is the encoding of the keywords and its
    [Hmac] header the signature of that body under the private key. *)
Theorem request_post_sends_signed_body (self : CoinPayments) (kwargs : dict) :
  Dict.mem "self" kwargs = false ->
  Dict.mem "request_method" kwargs = false ->
  Dict.mem "secret" kwargs = false ->
  let body := encode_utf8 (Urllib.urlencode kwargs) in
  fst (call_request JSON json_loads urlopen self "post" kwargs) =
  [ {| full_url := url self;
       data := Some body;
       headers :=
         [ ("Hmac", PStr (HMAC.hexdigest (encode_utf8 (private_key self)) body));
           ("Content-type", PStr "application/x-www-form-urlencoded") ] |} ].
Proof. apply call_request_post_sends. Qed.

(** X13. Every operation refuses a caller's parameter named [self],
    [request_method] or [secret]: it raises [TypeError] and sends nothing. *)
Theorem operation_refuses_reserved_names
    (op : operation) (self : CoinPayments) (params : option dict) :
  let caller := match params with Some p => p | None => [] end in
  Dict.mem "self" caller = true \/ Dict.mem "request_method" caller = true \/
  Dict.mem "secret" caller = true ->
  invoke JSON json_loads urlopen op self params = ([], Raise TypeError).
Proof.
  intros caller H.
  unfold invoke. rewrite method_dispatch.
  apply call_request_reserved.
  rewrite !(sent_mem op self params) by discriminate.
  exact H.
Qed.

(** X14. Every operation whose caller's parameters avoid those three names sends
    exactly one POST: the body is the encoding of the merged parameters and
    the [Hmac] header its signature under the private key. *)
Theorem operation_sends_one_post
    (op : operation) (self : CoinPayments) (params : option dict) :
  let caller := match params with Some p => p | None => [] end in
  Dict.mem "self" caller = false ->
  Dict.mem "request_method" caller = false ->
  Dict.mem "secret" caller = false ->
  let body := encode_utf8 (Urllib.urlencode (snd (sent op self params))) in
  fst (invoke JSON json_loads urlopen op self params) =
  [ {| full_url := url self;
       data := Some body;
       headers :=
         [ ("Hmac", PStr (HMAC.hexdigest (encode_utf8 (private_key self)) body));
           ("Content-type", PStr "application/x-www-form-urlencoded") ] |} ].
Proof.
  intros caller H1 H2 H3 body.
  unfold invoke. rewrite method_dispatch.
  apply call_request_post_sends;
    rewrite (sent_mem op self params) by discriminate; assumption.
Qed.

End Sending.

Lemma request_refuses_reserved_names_witness :
  Dict.mem "request_method" [("request_method", PStr "get")] = true /\
  call_request Json.json Json.loads empty_array CLIENT "get"
    [("request_method", PStr "get")] = ([], Raise TypeError).
Proof.
  assert (H : Dict.mem "request_method" [("request_method", PStr "get")] = true)
    by reflexivity.
  split; [exact H |].
  exact (request_refuses_reserved_names Json.json Json.loads empty_array CLIENT
           "get" [("request_method", PStr "get")] (or_intror (or_introl H))).
Defined.

Lemma request_get_sends_witness :
  Dict.mem "self" [("cmd", PStr "rates")] = false /\
  Dict.mem "request_method" [("cmd", PStr "rates")] = false /\
  Dict.mem "secret" [("cmd", PStr "rates")] = false /\
  fst (call_request Json.json Json.loads empty_array CLIENT "get"
         [("cmd", PStr "rates")]) =
  [ {| full_url := "https://www.coinpayments.net/api.php";
       data := None;
       headers :=
         [ ("Hmac", PStr (HMAC.hexdigest (encode_utf8 "private key")
                            (encode_utf8 "cmd=rates"))) ] |} ].
Proof.
  assert (H1 : Dict.mem "self" [("cmd", PStr "rates")] = false) by reflexivity.
  assert (H2 : Dict.mem "request_method" [("cmd", PStr "rates")] = false)
    by reflexivity.
  assert (H3 : Dict.mem "secret" [("cmd", PStr "rates")] = false) by reflexivity.
  split; [exact H1 |]. split; [exact H2 |]. split; [exact H3 |].
  exact (request_get_sends Json.json Json.loads empty_array CLIENT
           [("cmd", PStr "rates")] H1 H2 H3).
Defined.

Lemma request_post_sends_signed_body_witness :
  Dict.mem "self" [("cmd", PStr "rates")] = false /\
  Dict.mem "request_method" [("cmd", PStr "rates")] = false /\
  Dict.mem "secret" [("cmd", PStr "rates")] = false /\
  fst (call_request Json.json Json.loads empty_array CLIENT "post"
         [("cmd", PStr "rates")]) =
  [ {| full_url := "https://www.coinpayments.net/api.php";
       data := Some (encode_utf8 "cmd=rates");
       headers :=
         [ ("Hmac", PStr (HMAC.hexdigest (encode_utf8 "private key")
                            (encode_utf8 "cmd=rates")));
           ("Content-type", PStr "application/x-www-form-urlencoded") ] |} ].
Proof.
  assert (H1 : Dict.mem "self" [("cmd", PStr "rates")] = false) by reflexivity.
  assert (H2 : Dict.mem "request_method" [("cmd", PStr "rates")] = false)
    by reflexivity.
  assert (H3 : Dict.mem "secret" [("cmd", PStr "rates")] = false) by reflexivity.
  split; [exact H1 |]. split; [exact H2 |]. split; [exact H3 |].
  exact (request_post_sends_signed_body Json.json Json.loads empty_array CLIENT
           [("cmd", PStr "rates")] H1 H2 H3).
Defined.

Lemma operation_refuses_reserved_names_witness :
  Dict.mem "secret" [("currency", PStr "BTC"); ("secret", PStr "x")] = true /\
  invoke Json.json Json.loads empty_array GetDepositAddress CLIENT
    (Some [("currency", PStr "BTC"); ("secret", PStr "x")])
  = ([], Raise TypeError).
Proof.
  assert (H : Dict.mem "secret" [("currency", PStr "BTC"); ("secret", PStr "x")]
              = true) by reflexivity.
  split; [exact H |].
  exact (operation_refuses_reserved_names Json.json Json.loads empty_array
           GetDepositAddress CLIENT
           (Some [("currency", PStr "BTC"); ("secret", PStr "x")])
           (or_intror (or_intror H))).
Defined.

Lemma operation_sends_one_post_witness :
  Dict.mem "self" [("currency", PStr "BTC")] = false /\
  Dict.mem "request_method" [("currency", PStr "BTC")] = false /\
  Dict.mem "secret" [("currency", PStr "BTC")] = false /\
  fst (invoke Json.json Json.loads empty_array GetDepositAddress CLIENT
         (Some [("currency", PStr "BTC")])) =
  [ {| full_url := "https://www.coinpayments.net/api.php";
       data := Some (encode_utf8
         "currency=BTC&key=public+key&version=1&format=json&cmd=get_deposit_address");
       headers :=
         [ ("Hmac", PStr (HMAC.hexdigest (encode_utf8 "private key")
              (encode_utf8
         "currency=BTC&key=public+key&version=1&format=json&cmd=get_deposit_address")));
           ("Content-type", PStr "application/x-www-form-urlencoded") ] |} ].
Proof.
  assert (H1 : Dict.mem "self" [("currency", PStr "BTC")] = false) by reflexivity.
  assert (H2 : Dict.mem "request_method" [("currency", PStr "BTC")] = false)
    by reflexivity.
  assert (H3 : Dict.mem "secret" [("currency", PStr "BTC")] = false)
    by reflexivity.
  split; [exact H1 |]. split; [exact H2 |]. split; [exact H3 |].
  exact (operation_sends_one_post Json.json Json.loads empty_array
           GetDepositAddress CLIENT (Some [("currency", PStr "BTC")]) H1 H2 H3).
Defined.

(** ** The operations: order, reuse and keys of the dispatched parameters *)

(** X15. When the caller's parameters hold none of the injected keys, what is
    dispatched is the caller's entries in their order, then [key],
    [version], [format], then [ipn_url] where it is injected, then [cmd]. *)
Theorem operation_params_layout
    (op : operation) (self : CoinPayments) (caller : dict) :
  Dict.mem "key" caller = false -> Dict.mem "version" caller = false ->
  Dict.mem "format" caller = false -> Dict.mem "ipn_url" caller = false ->
  Dict.mem "cmd" caller = false ->
  snd (sent op self (Some caller)) =
  (caller ++
   [("key", PStr (public_key self)); ("version", PInt (version self));
    ("format", PStr (format self))] ++
   match op with
   | CreateTransaction | GetCallbackAddress =>
       if String.eqb (ipn_url self) "" then []
       else [("ipn_url", PStr (ipn_url self))]
   | _ => []
   end ++
   [("cmd", PStr (command op))])%list.
Proof.
  intros Hk Hv Hf Hi Hc.
  assert (Hpack : _package_params self (Some caller) =
    (caller ++ [("key", PStr (public_key self)); ("version", PInt (version self));
                ("format", PStr (format self))])%list).
  { unfold _package_params, Dict.update. cbn [fold_left fst snd].
    rewrite (set_fresh "format") by (rewrite !mem_set, Hf; reflexivity).
    rewrite (set_fresh "version") by (rewrite !mem_set, Hv; reflexivity).
    rewrite (set_fresh "key") by exact Hk.
    rewrite <- !app_assoc. reflexivity. }
  assert (Hmem : forall k, k <> "key" -> k <> "version" -> k <> "format" ->
            Dict.mem k (_package_params self (Some caller)) = Dict.mem k caller).
  { intros k H1 H2 H3. unfold Dict.mem.
    destruct (package_params_get self (Some caller)) as [_ [_ [_ Hother]]].
    rewrite (Hother k H1 H2 H3). reflexivity. }
  destruct op; unfold_operation;
    fold (Dict.update caller
            [("key", PStr (public_key self)); ("version", PInt (version self));
             ("format", PStr (format self))]);
    change (Dict.update caller _) with (_package_params self (Some caller));
    try (destruct (String.eqb (ipn_url self) ""); cbn [negb]);
    repeat (rewrite set_fresh
              by (rewrite ?mem_set, Hmem by discriminate;
                  rewrite ?Hi, ?Hc; reflexivity));
    rewrite Hpack, <- ?app_assoc; reflexivity.
Qed.

Lemma operation_params_layout_witness :
  Dict.mem "key" [("amount", PInt 10)] = false /\
  Dict.mem "version" [("amount", PInt 10)] = false /\
  Dict.mem "format" [("amount", PInt 10)] = false /\
  Dict.mem "ipn_url" [("amount", PInt 10)] = false /\
  Dict.mem "cmd" [("amount", PInt 10)] = false /\
  snd (sent CreateTransaction CLIENT (Some [("amount", PInt 10)])) =
  [ ("amount", PInt 10); ("key", PStr "public key"); ("version", PInt 1);
    ("format", PStr "json"); ("ipn_url", PStr "https://example.com");
    ("cmd", PStr "create_transaction") ].
Proof.
  assert (H1 : Dict.mem "key" [("amount", PInt 10)] = false) by reflexivity.
  assert (H2 : Dict.mem "version" [("amount", PInt 10)] = false) by reflexivity.
  assert (H3 : Dict.mem "format" [("amount", PInt 10)] = false) by reflexivity.
  assert (H4 : Dict.mem "ipn_url" [("amount", PInt 10)] = false) by reflexivity.
  assert (H5 : Dict.mem "cmd" [("amount", PInt 10)] = false) by reflexivity.
  split; [exact H1 |]. split; [exact H2 |]. split; [exact H3 |].
  split; [exact H4 |]. split; [exact H5 |].
  exact (operation_params_layout CreateTransaction CLIENT [("amount", PInt 10)]
           H1 H2 H3 H4 H5).
Defined.

(** X16. The caller's dict is updated in place, so a second call of the same
    operation with that dict finds every injected key already there and
    dispatches exactly what the first one did. *)
Theorem operation_reuse_same_dict
    (op : operation) (self : CoinPayments) (params : option dict) :
  sent op self (Some (snd (sent op self params))) = sent op self params.
Proof.
  destruct op; unfold_operation; unfold _package_params, Dict.update;
    cbn [fold_left fst snd];
    try destruct (negb (String.eqb (ipn_url self) ""));
    repeat (rewrite (set_present _ _ _)
              by (repeat (rewrite get_set; cbn [String.eqb Ascii.eqb Bool.eqb]);
                  reflexivity));
    reflexivity.
Qed.

(** X17. An operation never removes or moves a caller's key: the keys it
    dispatches are the caller's, in their order, followed by keys it
    injected; and they stay distinct. *)
Theorem operation_keeps_caller_keys
    (op : operation) (self : CoinPayments) (params : option dict) :
  let caller := match params with Some p => p | None => [] end in
  let d := snd (sent op self params) in
  (exists extra,
     Dict.keys d = (Dict.keys caller ++ extra)%list /\
     incl extra ["key"; "version"; "format"; "ipn_url"; "cmd"]) /\
  (NoDup (Dict.keys caller) -> NoDup (Dict.keys d)).
Proof.
  intros caller d. subst d.
  assert (H0 : exists extra,
            Dict.keys caller = (Dict.keys caller ++ extra)%list /\
            incl extra ["key"; "version"; "format"; "ipn_url"; "cmd"]).
  { exists []. rewrite app_nil_r. split; [reflexivity | intros x []]. }
  split.
  - destruct op; unfold_operation; unfold _package_params, Dict.update;
      cbn [fold_left fst snd]; fold caller;
      try destruct (negb (String.eqb (ipn_url self) ""));
      repeat (apply set_extends; [| simpl; tauto]); exact H0.
  - intros Hnd.
    destruct op; unfold_operation; unfold _package_params, Dict.update;
      cbn [fold_left fst snd]; fold caller;
      try destruct (negb (String.eqb (ipn_url self) ""));
      repeat apply set_NoDup; exact Hnd.
Qed.

Lemma operation_keeps_caller_keys_witness :
  NoDup (Dict.keys [("cmd", PStr "x"); ("currency", PStr "BTC")]) /\
  NoDup (Dict.keys (snd (sent Balances CLIENT
                           (Some [("cmd", PStr "x"); ("currency", PStr "BTC")])))).
Proof.
  assert (H : NoDup (Dict.keys [("cmd", PStr "x"); ("currency", PStr "BTC")])).
  { repeat constructor; simpl; intuition discriminate. }
  split; [exact H |].
  exact (proj2 (operation_keeps_caller_keys Balances CLIENT
                  (Some [("cmd", PStr "x"); ("currency", PStr "BTC")])) H).
Defined.

(** ** The signer: what it cannot tell apart *)

Lemma urlencode_items (d : dict) :
  Urllib.urlencode d =
  String.concat "&"
    (map (fun p => Urllib.quote_plus (fst p) ++ "=" ++ Urllib.quote_plus (snd p))
         (items_str d)).
Proof.
  unfold Urllib.urlencode, items_str. rewrite map_map. reflexivity.
Qed.

(** X9. The encoding and the signature read a value through [str] only: two
    parameter sets with the same keys in the same order whose values print
    alike, such as the number 1 and the string 1, are encoded and signed
    alike under every secret. *)
Theorem signature_reads_values_as_str (d1 d2 : dict) :
  items_str d1 = items_str d2 ->
  Urllib.urlencode d1 = Urllib.urlencode d2 /\
  forall secret, calculate_hmac secret d1 = calculate_hmac secret d2.
Proof.
  intros H.
  assert (He : Urllib.urlencode d1 = Urllib.urlencode d2)
    by (rewrite !urlencode_items, H; reflexivity).
  split; [exact He |].
  intros secret. unfold calculate_hmac. rewrite He. reflexivity.
Qed.

Lemma signature_reads_values_as_str_witness :
  items_str [("version", PInt 1)] = items_str [("version", PStr "1")] /\
  Urllib.urlencode [("version", PInt 1)] = Urllib.urlencode [("version", PStr "1")].
Proof.
  assert (H : items_str [("version", PInt 1)] = items_str [("version", PStr "1")])
    by reflexivity.
  split; [exact H |].
  exact (proj1 (signature_reads_values_as_str [("version", PInt 1)]
                  [("version", PStr "1")] H)).
Defined.

(** ** The test suite's runs of the client *)

Example test_package_params :
  _package_params CLIENT (Some [("hello", PStr "world"); ("foo", PStr "bar")]) =
  [ ("hello", PStr "world"); ("foo", PStr "bar"); ("key", PStr "public key");
    ("version", PInt 1); ("format", PStr "json") ].
Proof. reflexivity. Qed.

Example test_get_basic_info :
  sent GetBasicInfo CLIENT (Some []) =
  ("post", [ ("key", PStr "public key"); ("version", PInt 1);
             ("format", PStr "json"); ("cmd", PStr "get_basic_info") ]).
Proof. reflexivity. Qed.

Example test_balances :
  sent Balances CLIENT (Some [("all", PInt 1)]) =
  ("post", [ ("all", PInt 1); ("key", PStr "public key"); ("version", PInt 1);
             ("format", PStr "json"); ("cmd", PStr "balances") ]).
Proof. reflexivity. Qed.
